(** * The catalog service: request validation, response assembly, handlers

    A shallow embedding of the Go packages [app/catalog], [app/category],
    [app/repos/products] and [app/repos/category], together with the small
    parts of [strconv], [regexp], [errors] and [shopspring/decimal] that
    they call, followed by the properties of the request-to-result pipeline.

    Go strings are byte strings and are embedded as [string]; Go's [int] is
    the 64-bit signed integer, embedded as [Z] with its wrap-around written
    out where the code computes with it. *)

From Stdlib Require Import ZArith QArith Qpower String Ascii List Bool Lia.
From stdpp Require Import base option list.
Import ListNotations.

Local Open Scope Z_scope.

(* ===================================================================== *)
(** * Go base types *)

(** [int] on the 64-bit platforms the service is built for. *)
Definition intSize : Z := 64.
Definition minInt : Z := - 2 ^ 63.
Definition maxInt : Z := 2 ^ 63 - 1.

(** Two's complement wrap-around of [int] arithmetic. *)
Definition wrap_int (z : Z) : Z := (z + 2 ^ 63) mod 2 ^ 64 - 2 ^ 63.

(** [len] of a slice or a string. *)
Definition len {A : Type} (l : list A) : Z := Z.of_nat (length l).

(* ===================================================================== *)
(** * Package [errors], with the sentinel errors of gorm *)

Module errors.

(** The package-level error values that the repositories test for with
    [errors.Is]. *)
Inductive sentinel : Type :=
| ErrRecordNotFound
| ErrDuplicatedKey.

Definition sentinel_eqb (a b : sentinel) : bool :=
  match a, b with
  | ErrRecordNotFound, ErrRecordNotFound => true
  | ErrDuplicatedKey, ErrDuplicatedKey => true
  | _, _ => false
  end.

(** A non-nil [error]: the text its [Error()] method returns, and the
    sentinels found along its [Unwrap] chain (itself included).  The two
    are independent: [errors.Is] compares identities, never texts. *)
Record error : Type := mkError {
  Error : string;
  chain : list sentinel
}.

(** [errors.New(text)]: a fresh error, distinct from every sentinel. *)
Definition New (text : string) : error :=
  {| Error := text; chain := [] |}.

(** [errors.Is(err, target)] for a sentinel target. *)
Definition Is (err : error) (target : sentinel) : bool :=
  existsb (sentinel_eqb target) (chain err).

End errors.

Module gorm.

(** [gorm.ErrRecordNotFound] and [gorm.ErrDuplicatedKey] as error values. *)
Definition ErrRecordNotFound : errors.error :=
  {| errors.Error := "record not found";
     errors.chain := [errors.ErrRecordNotFound] |}.

Definition ErrDuplicatedKey : errors.error :=
  {| errors.Error := "duplicated key not allowed";
     errors.chain := [errors.ErrDuplicatedKey] |}.

End gorm.

(* ===================================================================== *)
(** * Package [strconv] *)

Module strconv.

(** [ch -= '0'; if ch > 9 { syntax error }] *)
Definition digit (c : ascii) : option Z :=
  let n := Z.of_N (N_of_ascii c) in
  if (48 <=? n) && (n <=? 57) then Some (n - 48) else None.

(** [n = n*10 + int(ch)] over the bytes of [s]. *)
Fixpoint digits (s : string) (n : Z) : option Z :=
  match s with
  | EmptyString => Some n
  | String c rest =>
      match digit c with
      | Some d => digits rest (n * 10 + d)
      | None => None
      end
  end.

(** [ParseInt(s, 10, bitSize)]: an optional sign, then one or more decimal
    digits; a value outside the [bitSize]-bit signed range is a range
    error.  [None] stands for a non-nil error of either kind. *)
Definition ParseInt (s : string) (bitSize : Z) : option Z :=
  let '(neg, body) :=
    match s with
    | String "+" rest => (false, rest)
    | String "-" rest => (true, rest)
    | _ => (false, s)
    end in
  match body with
  | EmptyString => None
  | _ =>
      match digits body 0 with
      | None => None
      | Some un =>
          let n := if neg then - un else un in
          if (- 2 ^ (bitSize - 1) <=? n) && (n <=? 2 ^ (bitSize - 1) - 1)
          then Some n else None
      end
  end.

(** [Atoi(s)] is [ParseInt(s, 10, 0)] converted to [int]; its fast path
    for short strings computes the same result. *)
Definition Atoi (s : string) : option Z := ParseInt s intSize.

End strconv.

(* ===================================================================== *)
(** * Package [decimal] (shopspring) *)

Module decimal.

(** The [*big.Int] held by a [Decimal].  The program never writes through
    such a pointer and compares it with one pointer only, the one stored
    in [decimal.Zero]; a pointer is therefore [nil], that very pointer,
    or a pointer to some other [big.Int], given with the integer found
    there. *)
Inductive big_Int_ptr : Type :=
| nil_Int
| Zero_Int
| new_Int (n : Z).

(** The integer behind the pointer; the library reads [nil] as 0
    ([ensureInitialized]). *)
Definition deref (p : big_Int_ptr) : Z :=
  match p with
  | nil_Int => 0
  | Zero_Int => 0
  | new_Int n => n
  end.

(** [type Decimal struct { value *big.Int; exp int32 }], denoting
    [value * 10 ^ exp]. *)
Record Decimal : Type := mkDecimal {
  value : big_Int_ptr;
  exp : Z
}.

(** [Decimal{}] *)
Definition zero_value : Decimal := {| value := nil_Int; exp := 0 |}.

(** [New(value, exp)] allocates a fresh [big.Int]. *)
Definition New (v : Z) (e : Z) : Decimal :=
  {| value := new_Int v; exp := e |}.

(** [var Zero = New(0, 1)], allocated once when the package is loaded. *)
Definition Zero : Decimal := {| value := Zero_Int; exp := 1 |}.

(** Go's [d == decimal.Zero] on the struct: both fields are compared, the
    pointer by identity. *)
Definition eq_Zero (d : Decimal) : bool :=
  match value d with
  | Zero_Int => exp d =? exp Zero
  | _ => false
  end.

(** The number a decimal denotes. *)
Definition to_Q (d : Decimal) : Q := inject_Z (deref (value d)) * 10 ^ exp d.

(** [d.Cmp(d2)]: both coefficients are rescaled to the smaller exponent
    and compared. *)
Definition Cmp (d d2 : Decimal) : comparison :=
  let e := Z.min (exp d) (exp d2) in
  Z.compare (deref (value d) * 10 ^ (exp d - e))
            (deref (value d2) * 10 ^ (exp d2 - e)).

Definition GreaterThan (d d2 : Decimal) : bool :=
  match Cmp d d2 with Gt => true | _ => false end.

(** [d.Equal(d2)], the numeric equality. *)
Definition Equal (d d2 : Decimal) : bool :=
  match Cmp d d2 with Eq => true | _ => false end.

(** [strings.IndexAny(value, "Ee")]: the text before the first [E] or [e]
    and the text after it. *)
Fixpoint cut_exponent (s : string) : string * option string :=
  match s with
  | EmptyString => (EmptyString, None)
  | String c rest =>
      if (Ascii.eqb c "E" || Ascii.eqb c "e")%bool then (EmptyString, Some rest)
      else let '(m, e) := cut_exponent rest in (String c m, e)
  end.

(** The scan for the decimal point: the text before the first ['.'] and
    the text after it. *)
Fixpoint cut_point (s : string) : string * option string :=
  match s with
  | EmptyString => (EmptyString, None)
  | String c rest =>
      if Ascii.eqb c "." then (EmptyString, Some rest)
      else let '(i, f) := cut_point rest in (String c i, f)
  end.

Fixpoint has_point (s : string) : bool :=
  match s with
  | EmptyString => false
  | String c rest => Ascii.eqb c "." || has_point rest
  end.

(** Sign and digits of any length: [strconv.ParseInt] for at most 18
    bytes, [big.Int.SetString] beyond; both read the same syntax. *)
Definition parse_coefficient (s : string) : option Z :=
  let '(neg, body) :=
    match s with
    | String "+" rest => (false, rest)
    | String "-" rest => (true, rest)
    | _ => (false, s)
    end in
  match body with
  | EmptyString => None
  | _ =>
      match strconv.digits body 0 with
      | None => None
      | Some un => Some (if neg then - un else un)
      end
  end.

(** [NewFromString(value)]: an optional exponent part after [E] or [e]
    (a 32-bit integer), at most one decimal point, and a coefficient read
    from the remaining sign and digits; the exponent is lowered by the
    number of fraction digits and must fit 32 bits.  [None] stands for a
    non-nil error. *)
Definition NewFromString (s : string) : option Decimal :=
  let '(mantissa, e_part) := cut_exponent s in
  let exp0 :=
    match e_part with
    | None => Some 0
    | Some e => strconv.ParseInt e 32
    end in
  match exp0 with
  | None => None
  | Some e0 =>
      let '(int_part, frac_part) := cut_point mantissa in
      let parts :=
        match frac_part with
        | None => Some (int_part, e0)
        | Some f =>
            if has_point f then None
            else Some ((int_part ++ f)%string, e0 - Z.of_nat (String.length f))
        end in
      match parts with
      | None => None
      | Some (intString, e) =>
          match parse_coefficient intString with
          | None => None
          | Some v =>
              if (- 2 ^ 31 <=? e) && (e <=? 2 ^ 31 - 1)
              then Some (New v e) else None
          end
      end
  end.

End decimal.

(** [d.InexactFloat64()] and the [float64] it returns.  The rounding of a
    decimal to the nearest binary floating-point number is left to the
    implementation; the development holds for every one. *)
Class Float64 : Type := {
  float64 : Type;
  float64_zero : float64;
  InexactFloat64 : decimal.Decimal -> float64
}.

(* ===================================================================== *)
(** * Package [models] *)

Module models.

(** Modelled from the spec: the declaration of [models.Variant] is not
    among the sources; the fields are those of the data model (identity,
    name, SKU, price, back-reference to the product) under the names the
    tests build the struct with. *)
Record Variant : Type := mkVariant {
  Variant_ID : N;
  Variant_Name : string;
  Variant_SKU : string;
  Variant_Price : decimal.Decimal;
  Variant_ProductID : N
}.

(** [models.Category] as declared, and [models.Product]: modelled from
    the spec, its declaration is not among the sources; the fields are
    those of the data model (identity, code, price, category, variants)
    under the names the tests and the handlers use. *)
Inductive Product : Type := mkProduct {
  Product_ID : N;
  Product_Code : string;
  Product_Price : decimal.Decimal;
  Product_Category : Category;
  Product_Variants : list Variant
}
with Category : Type := mkCategory {
  Category_ID : N;
  Category_Code : string;
  Category_Name : string;
  Category_Products : list Product
}.

(** [models.Category{}] and [models.Product{}] *)
Definition Category_zero : Category :=
  {| Category_ID := 0; Category_Code := ""; Category_Name := "";
     Category_Products := [] |}.

Definition Product_zero : Product :=
  {| Product_ID := 0; Product_Code := "";
     Product_Price := decimal.zero_value;
     Product_Category := Category_zero; Product_Variants := [] |}.

End models.

(* ===================================================================== *)
(** * Programs over a capability

    A handler is a program that performs calls of an interface [E] and
    ends in a result; the calls it performs are part of what it is. *)

Section Prog.

Context {E : Type -> Type}.

Inductive prog (R : Type) : Type :=
| Ret (r : R)
| Call {X : Type} (e : E X) (k : X -> prog R).

Global Arguments Ret {R} r.
Global Arguments Call {R X} e k.

(** A call that was performed. *)
Definition call : Type := { X : Type & E X }.

(** An implementation of the interface over a state [S] (the store). *)
Definition implementation (S : Type) : Type := forall X, E X -> S -> X * S.

(** Running a program against an implementation: the result, the final
    state, and the calls performed, in order. *)
Fixpoint run {S R : Type} (impl : implementation S) (p : prog R) (s : S)
  : R * S * list call :=
  match p with
  | Ret r => (r, s, [])
  | Call e k =>
      let '(x, s1) := impl _ e s in
      let '(r, s2, calls) := run impl (k x) s1 in
      (r, s2, existT _ e :: calls)
  end.

End Prog.

Global Arguments prog E R : clear implicits.
Global Arguments call E : clear implicits.
Global Arguments implementation E S : clear implicits.

(* ===================================================================== *)
(** * Packages [net/http] and [app/api] *)

Module http.
Definition StatusOK : Z := 200.
Definition StatusBadRequest : Z := 400.
Definition StatusConflict : Z := 409.
Definition StatusInternalServerError : Z := 500.
End http.

Module api.

(** Modelled from the spec: package [app/api] is not among the sources.
    [ErrorResponse(w, status, message)] answers with the given status and
    the message as the error of the body; [OKResponse(w, data)] answers
    200 with the data as the body.  A handler writes exactly one of them
    and returns; the value below is what it wrote. *)
Inductive Response (A : Type) : Type :=
| ErrorResponse (status : Z) (message : string)
| OKResponse (data : A).

Global Arguments ErrorResponse {A} status message.
Global Arguments OKResponse {A} data.

Definition status {A : Type} (r : Response A) : Z :=
  match r with
  | ErrorResponse st _ => st
  | OKResponse _ => http.StatusOK
  end.

End api.

(* ===================================================================== *)
(** * The store behind the gorm repositories *)

Module gormdb.

(** The [*gorm.DB] handle as the two repositories use it in the methods
    embedded below: for each statement, what it leaves in its destination
    and in [.Error] ([None] is [nil]).  gorm reports a [First] that finds
    no row by an error for which [errors.Is(err, gorm.ErrRecordNotFound)]
    holds. *)
Record DB : Type := mkDB {
  (** [db.Preload("Variants").Where("code = ?", code).First(&product)] *)
  First_product_where_code :
    string -> models.Product * option errors.error;
  (** [db.Create(newCategory)] *)
  Create_category : models.Category -> option errors.error
}.

(** The statement found no row. *)
Definition no_row {A : Type} (res : A * option errors.error) : Prop :=
  exists e, snd res = Some e /\ errors.Is e errors.ErrRecordNotFound = true.

End gormdb.

(* ===================================================================== *)
(** * Package [app/repos/products] *)

Module products.

Record SearchFilters : Type := mkSearchFilters {
  Offset : Z;
  Limit : Z;
  Category : string;
  PriceLessThan : option decimal.Decimal
}.

(** Assignments to one field of a [SearchFilters] variable. *)
Definition set_Offset (o : Z) (f : SearchFilters) : SearchFilters :=
  {| Offset := o; Limit := Limit f; Category := Category f;
     PriceLessThan := PriceLessThan f |}.
Definition set_Limit (l : Z) (f : SearchFilters) : SearchFilters :=
  {| Offset := Offset f; Limit := l; Category := Category f;
     PriceLessThan := PriceLessThan f |}.
Definition set_Category (c : string) (f : SearchFilters) : SearchFilters :=
  {| Offset := Offset f; Limit := Limit f; Category := c;
     PriceLessThan := PriceLessThan f |}.
Definition set_PriceLessThan (p : option decimal.Decimal) (f : SearchFilters)
  : SearchFilters :=
  {| Offset := Offset f; Limit := Limit f; Category := Category f;
     PriceLessThan := p |}.

(** [type Repository interface]: one call per method, indexed by what the
    method returns (the [context.Context] argument is not modelled). *)
Inductive Repository : Type -> Type :=
| ListAll : Repository (list models.Product * option errors.error)
| List (filters : SearchFilters)
    : Repository (list models.Product * option errors.error)
| GetByID (id : string) : Repository (models.Product * option errors.error)
| GetByCode (code : string)
    : Repository (models.Product * option errors.error)
| GetByCategory (category : string)
    : Repository (list models.Product * option errors.error).

(** [func (r *GormRepo) GetByCode] *)
Definition GormRepo_GetByCode (db : gormdb.DB) (code : string)
  : models.Product * option errors.error :=
  let '(product, err) := gormdb.First_product_where_code db code in
  match err with
  | Some e =>
      if errors.Is e errors.ErrRecordNotFound
      then (models.Product_zero, None)
      else (models.Product_zero, Some e)
  | None => (product, None)
  end.

End products.

(* ===================================================================== *)
(** * Package [app/repos/category] *)

Module categoryRepo.

(** [type Repository interface] *)
Inductive Repository : Type -> Type :=
| ListAll : Repository (list models.Category * option errors.error)
| Create (newCategory : models.Category) : Repository (option errors.error)
| GetByID (id : Z) : Repository (string * option errors.error)
| GetByCode (code : string) : Repository (string * option errors.error)
| GetProducts (code : string)
    : Repository (list models.Product * option errors.error).

(** [func (r *GormRepo) Create] *)
Definition GormRepo_Create (db : gormdb.DB) (newCategory : models.Category)
  : option errors.error :=
  let err := gormdb.Create_category db newCategory in
  match err with
  | Some e =>
      if errors.Is e errors.ErrDuplicatedKey
      then Some (errors.New "category code already exists")
      else err
  | None => err
  end.

End categoryRepo.

(* ===================================================================== *)
(** * Package [regexp] *)

Module regexp.

(** The syntax the pattern of [validateProductCode] is written in. *)
Inductive Regexp : Type :=
| BeginText                         (* ^ *)
| EndText                           (* $ *)
| Literal (c : ascii)               (* an ordinary character *)
| Digit                             (* \d, which is [0-9] *)
| Concat (r1 r2 : Regexp)
| Repeat (r : Regexp) (n : nat).    (* r{n} *)

Definition is_digit (c : ascii) : bool :=
  let n := N_of_ascii c in ((48 <=? n) && (n <=? 57))%N.

(** Matching [r] at the current position, [s] being the text that follows
    and [bot] telling that the position is the beginning of the text; [k]
    continues with whatever the match left.  No character of the pattern
    is outside ASCII, so matching bytes is matching runes. *)
Fixpoint matches (r : Regexp) (bot : bool) (s : string)
  (k : bool -> string -> bool) : bool :=
  match r with
  | BeginText => if bot then k bot s else false
  | EndText => match s with EmptyString => k bot s | _ => false end
  | Literal c =>
      match s with
      | String c' rest => if Ascii.eqb c' c then k false rest else false
      | EmptyString => false
      end
  | Digit =>
      match s with
      | String c' rest => if is_digit c' then k false rest else false
      | EmptyString => false
      end
  | Concat r1 r2 => matches r1 bot s (fun bot' s' => matches r2 bot' s' k)
  | Repeat r1 n =>
      (fix rep (n : nat) (bot : bool) (s : string) : bool :=
         match n with
         | O => k bot s
         | S n' => matches r1 bot s (fun bot' s' => rep n' bot' s')
         end) n bot s
  end.

(** A match may begin at any position of the text. *)
Fixpoint search (r : Regexp) (bot : bool) (s : string) : bool :=
  matches r bot s (fun _ _ => true)
  || match s with
     | EmptyString => false
     | String _ rest => search r false rest
     end.

(** [regexp.MatchString(pattern, s)] for a pattern that compiles: whether
    [s] contains a match, and a nil error. *)
Definition MatchString (pattern : Regexp) (s : string)
  : bool * option errors.error :=
  (search pattern true s, None).

End regexp.

(* ===================================================================== *)
(** * Package [app/catalog] *)

Module catalog.

(** The parts of [*http.Request] the handlers read:
    [r.URL.Query().Get(key)] and [r.PathValue(name)]. *)
Record Request : Type := mkRequest {
  URL_Query_Get : string -> string;
  PathValue : string -> string
}.

Section WithFloat64.

Context {F : Float64}.

Record Product : Type := mkProduct {
  Code : string;
  Price : float64;
  Category : string
}.

(** [Variants] is a slice that the JSON tag lets be left out; [None] is
    the nil slice, [Some []] an empty slice that is not nil. *)
Record Response : Type := mkResponse {
  Products : list Product;
  ProductsAvailable : Z;
  Variants : option (list models.Variant)
}.

(** [Product{}], the element [make] fills a slice with. *)
Definition Product_zero : Product :=
  {| Code := ""; Price := float64_zero; Category := "" |}.

(** [for i, p := range dbProducts]: the state is [respProducts] and
    [uniqueProductCount].  [respProducts] was made with the length of
    [dbProducts], so every index written is in range. *)
Fixpoint prepareResponse_products (dbProducts : list models.Product)
  (i : nat) (respProducts : list Product) (uniqueProductCount : Z)
  : list Product * Z :=
  match dbProducts with
  | [] => (respProducts, uniqueProductCount)
  | p :: rest =>
      let respProducts :=
        <[ i := {| Code := models.Product_Code p;
                   Price := InexactFloat64 (models.Product_Price p);
                   Category :=
                     models.Category_Name (models.Product_Category p) |} ]>
          respProducts in
      let uniqueProductCount :=
        if len (models.Product_Variants p) >? 0
        then wrap_int (uniqueProductCount + len (models.Product_Variants p))
        else uniqueProductCount in
      prepareResponse_products rest (S i) respProducts uniqueProductCount
  end.

(** [for _, variant := range dbProducts[0].Variants]: [variant] is a
    copy of the element, and the state is [resp.Variants]. *)
Fixpoint prepareResponse_variants (price0 : decimal.Decimal)
  (variants : list models.Variant) (respVariants : list models.Variant)
  : list models.Variant :=
  match variants with
  | [] => respVariants
  | variant :: rest =>
      let variant :=
        if decimal.eq_Zero (models.Variant_Price variant)
        then {| models.Variant_ID := models.Variant_ID variant;
                models.Variant_Name := models.Variant_Name variant;
                models.Variant_SKU := models.Variant_SKU variant;
                models.Variant_Price := price0;
                models.Variant_ProductID :=
                  models.Variant_ProductID variant |}
        else variant in
      prepareResponse_variants price0 rest (respVariants ++ [variant])
  end.

Definition prepareResponse (dbProducts : list models.Product)
  (includeVariants : bool) : Response :=
  let respProducts := replicate (length dbProducts) Product_zero in
  let uniqueProductCount := 0 in
  let '(respProducts, uniqueProductCount) :=
    prepareResponse_products dbProducts 0%nat respProducts
      uniqueProductCount in
  let resp :=
    {| Products := respProducts;
       ProductsAvailable := uniqueProductCount;
       Variants := None |} in
  if includeVariants && (len dbProducts >? 0)
  then
    match dbProducts !! 0%nat with
    | Some p0 =>
        {| Products := Products resp;
           ProductsAvailable := ProductsAvailable resp;
           Variants :=
             Some (prepareResponse_variants (models.Product_Price p0)
                     (models.Product_Variants p0) []) |}
    | None => resp  (* not reached: the guard gives an element 0 *)
    end
  else resp.

Definition validateProductFilters
  (offset limit priceLimit category : string) : products.SearchFilters :=
  let filters :=
    {| products.Offset := 0; products.Limit := 10;
       products.Category := ""; products.PriceLessThan := None |} in
  let filters :=
    if negb (offset =? "")%string then
      match strconv.Atoi offset with
      | Some o => if o >=? 0 then products.set_Offset o filters else filters
      | None => filters
      end
    else filters in
  let filters :=
    if negb (limit =? "")%string then
      match strconv.Atoi limit with
      | Some l =>
          if (l >? 0) && (l <=? 100)
          then products.set_Limit l filters else filters
      | None => filters
      end
    else filters in
  let filters :=
    if negb (priceLimit =? "")%string then
      match decimal.NewFromString priceLimit with
      | Some p =>
          if decimal.GreaterThan p decimal.Zero
          then products.set_PriceLessThan (Some p) filters else filters
      | None => filters
      end
    else filters in
  let filters :=
    if negb (category =? "")%string
    then products.set_Category category filters else filters in
  filters.

(** The pattern [^PROD\d{3}$]. *)
Definition pattern : regexp.Regexp :=
  regexp.Concat regexp.BeginText
    (regexp.Concat (regexp.Literal "P")
       (regexp.Concat (regexp.Literal "R")
          (regexp.Concat (regexp.Literal "O")
             (regexp.Concat (regexp.Literal "D")
                (regexp.Concat (regexp.Repeat regexp.Digit 3)
                   regexp.EndText))))).

Definition validateProductCode (code : string) : bool :=
  if (code =? "")%string then false
  else
    let '(matched, err) := regexp.MatchString pattern code in
    match err with
    | Some _ => false
    | None => matched
    end.

Definition HandleGet (r : Request)
  : prog products.Repository (api.Response Response) :=
  let filters :=
    validateProductFilters
      (URL_Query_Get r "offset") (URL_Query_Get r "limit")
      (URL_Query_Get r "priceLessThan") (URL_Query_Get r "category") in
  Call (products.List filters) (fun '(dbProducts, err) =>
    match err with
    | Some e =>
        Ret (api.ErrorResponse http.StatusInternalServerError
               (errors.Error e))
    | None => Ret (api.OKResponse (prepareResponse dbProducts false))
    end).

Definition invalid_code_message : string :=
  "Invalid product code format. Expected format: PROD followed by 3 digits (e.g., PROD001)".

Definition HandleGetSpecific (r : Request)
  : prog products.Repository (api.Response Response) :=
  let code := PathValue r "code" in
  if negb (validateProductCode code)
  then Ret (api.ErrorResponse http.StatusBadRequest invalid_code_message)
  else
    Call (products.GetByCode code) (fun '(dbProducts, err) =>
      match err with
      | Some e =>
          Ret (api.ErrorResponse http.StatusInternalServerError
                 (errors.Error e))
      | None => Ret (api.OKResponse (prepareResponse [dbProducts] true))
      end).

End WithFloat64.

End catalog.

(* ===================================================================== *)
(** * Package [app/category] *)

Module category.

Record Category : Type := mkCategory {
  Code : string;
  Name : string
}.

Record Response : Type := mkResponse {
  Categories : list Category
}.

Record CreateRequest : Type := mkCreateRequest {
  CreateRequest_Code : string;
  CreateRequest_Name : string
}.

(** The part of [*http.Request] the handlers read: what
    [json.NewDecoder(r.Body).Decode(&req)] leaves in [req], or [None] when
    it returns an error. *)
Record Request : Type := mkRequest {
  Body_Decode : option CreateRequest
}.

(** The body of a successful [HandlePost]. *)
Definition created : list (string * string) :=
  [("message"%string, "Category created successfully"%string)].

(** [for i, cat := range categories] *)
Fixpoint prepareResponse_loop (categories : list models.Category) (i : nat)
  (categoryResponses : list Category) : list Category :=
  match categories with
  | [] => categoryResponses
  | cat :: rest =>
      prepareResponse_loop rest (S i)
        (<[ i := {| Code := models.Category_Code cat;
                    Name := models.Category_Name cat |} ]> categoryResponses)
  end.

Definition prepareResponse (categories : list models.Category) : Response :=
  let categoryResponses :=
    replicate (length categories) {| Code := ""; Name := "" |} in
  {| Categories := prepareResponse_loop categories 0%nat categoryResponses |}.

Definition HandleGet
  : prog categoryRepo.Repository (api.Response Response) :=
  Call categoryRepo.ListAll (fun '(categories, err) =>
    match err with
    | Some e =>
        Ret (api.ErrorResponse http.StatusInternalServerError
               (errors.Error e))
    | None => Ret (api.OKResponse (prepareResponse categories))
    end).

Definition HandlePost (r : Request)
  : prog categoryRepo.Repository (api.Response (list (string * string))) :=
  match Body_Decode r with
  | None => Ret (api.ErrorResponse http.StatusBadRequest "Invalid JSON")
  | Some req =>
      if (CreateRequest_Code req =? "")%string
         || (CreateRequest_Name req =? "")%string
      then
        Ret (api.ErrorResponse http.StatusBadRequest
               "Code and name are required")
      else
        let newCategory :=
          {| models.Category_ID := 0;
             models.Category_Code := CreateRequest_Code req;
             models.Category_Name := CreateRequest_Name req;
             models.Category_Products := [] |} in
        Call (categoryRepo.Create newCategory) (fun err =>
          match err with
          | Some e =>
              if (errors.Error e =? "category code already exists")%string
              then Ret (api.ErrorResponse http.StatusConflict
                          (errors.Error e))
              else Ret (api.ErrorResponse http.StatusInternalServerError
                          (errors.Error e))
          | None => Ret (api.OKResponse created)
          end)
  end.

End category.


(* ===================================================================== *)
(** * The properties, as the specification words them *)

Module spec.

(** "The sum over all input products of [len(Variants)]". *)
Definition variants_total (dbProducts : list models.Product) : Z :=
  foldr (fun p acc => len (models.Product_Variants p) + acc) 0 dbProducts.

(** A value an [int] can hold. *)
Definition fits_int (z : Z) : Prop := minInt <= z <= maxInt.

(** The DTO "derived from" a product: its code, its price as a float, the
    name of its category. *)
Definition product_dto {F : Float64} (p : models.Product) : catalog.Product :=
  {| catalog.Code := models.Product_Code p;
     catalog.Price := InexactFloat64 (models.Product_Price p);
     catalog.Category := models.Category_Name (models.Product_Category p) |}.

(** A variant with another price. *)
Definition with_price (v : models.Variant) (price : decimal.Decimal)
  : models.Variant :=
  {| models.Variant_ID := models.Variant_ID v;
     models.Variant_Name := models.Variant_Name v;
     models.Variant_SKU := models.Variant_SKU v;
     models.Variant_Price := price;
     models.Variant_ProductID := models.Variant_ProductID v |}.

(** The variant as emitted for a product priced [price0], with the test
    the code makes: the stored price is the value [decimal.Zero] itself. *)
Definition emitted (price0 : decimal.Decimal) (v : models.Variant)
  : models.Variant :=
  if decimal.eq_Zero (models.Variant_Price v) then with_price v price0 else v.

(** "A stored price of exactly zero": the number the decimal denotes is 0. *)
Definition exactly_zero (d : decimal.Decimal) : Prop := decimal.to_Q d == 0.

(** "Strictly positive", on the number the decimal denotes. *)
Definition strictly_positive (d : decimal.Decimal) : bool :=
  negb (Qle_bool (decimal.to_Q d) 0).

(** "An ASCII digit". *)
Definition ascii_digit (c : ascii) : Prop :=
  exists n : nat, (n < 10)%nat /\ c = ascii_of_nat (48 + n).

(** "Exactly the literal PROD followed by exactly 3 ASCII digits". *)
Definition PROD_and_3_digits (code : string) : Prop :=
  exists d1 d2 d3 : ascii,
    ascii_digit d1 /\ ascii_digit d2 /\ ascii_digit d3 /\
    code = ("PROD" ++ String d1 (String d2 (String d3 EmptyString)))%string.

(** The text by which a conflict is told. *)
Definition conflict_text : string := "category code already exists".

(** "One empty product": the DTO of the zero-valued product. *)
Definition empty_product {F : Float64} : catalog.Product :=
  {| catalog.Code := "";
     catalog.Price := InexactFloat64 decimal.zero_value;
     catalog.Category := "" |}.

(** The body of [POST /categories] with the two fields, decoded. *)
Definition create_request (code name : string) : category.Request :=
  {| category.Body_Decode :=
       Some {| category.CreateRequest_Code := code;
               category.CreateRequest_Name := name |} |}.

(** The category made of the two fields. *)
Definition new_category (code name : string) : models.Category :=
  {| models.Category_ID := 0;
     models.Category_Code := code;
     models.Category_Name := name;
     models.Category_Products := [] |}.

End spec.

(* ===================================================================== *)
(** * Sample data

    The products of the handler tests, and a variant whose price of zero
    was read from the store. *)

Module sample.

(** A rendering for the examples: the number the decimal denotes, kept
    exact. *)
Definition exact : Float64 :=
  {| float64 := Q; float64_zero := 0%Q; InexactFloat64 := decimal.to_Q |}.

Definition clothing : models.Category :=
  {| models.Category_ID := 1; models.Category_Code := "clothing";
     models.Category_Name := "Clothing"; models.Category_Products := [] |}.

Definition shoes : models.Category :=
  {| models.Category_ID := 2; models.Category_Code := "shoes";
     models.Category_Name := "Shoes"; models.Category_Products := [] |}.

(** [Price: decimal.Zero, // Should inherit from product] *)
Definition medium : models.Variant :=
  {| models.Variant_ID := 1; models.Variant_Name := "Medium";
     models.Variant_SKU := "PROD001-M";
     models.Variant_Price := decimal.Zero;
     models.Variant_ProductID := 1 |}.

(** [Price: decimal.NewFromFloat(120), // Has specific price] *)
Definition large : models.Variant :=
  {| models.Variant_ID := 2; models.Variant_Name := "Large";
     models.Variant_SKU := "PROD001-L";
     models.Variant_Price := decimal.New 120 0;
     models.Variant_ProductID := 1 |}.

(** A price of 0.00 as [Decimal.Scan] builds it from the column of the
    store: [NewFromString("0.00")], a fresh [big.Int] holding 0 and the
    exponent -2. *)
Definition small : models.Variant :=
  {| models.Variant_ID := 3; models.Variant_Name := "Small";
     models.Variant_SKU := "PROD001-S";
     models.Variant_Price := decimal.New 0 (-2);
     models.Variant_ProductID := 1 |}.

(** PROD001, priced 100.50, with the given variants. *)
Definition prod001 (variants : list models.Variant) : models.Product :=
  {| models.Product_ID := 1; models.Product_Code := "PROD001";
     models.Product_Price := decimal.New 1005 (-1);
     models.Product_Category := clothing;
     models.Product_Variants := variants |}.

(** PROD002, priced 200.75, without variants. *)
Definition prod002 : models.Product :=
  {| models.Product_ID := 2; models.Product_Code := "PROD002";
     models.Product_Price := decimal.New 20075 (-2);
     models.Product_Category := shoes;
     models.Product_Variants := [] |}.

(** A request for [GET /catalog/{code}]. *)
Definition get_code (code : string) : catalog.Request :=
  {| catalog.URL_Query_Get := fun _ => EmptyString;
     catalog.PathValue := fun name =>
       if (name =? "code")%string then code else EmptyString |}.

(** A store that holds the given products and categories: [First] finds
    the first product with the code or reports [ErrRecordNotFound];
    [Create] reports [ErrDuplicatedKey] for a code that is taken. *)
Definition store (rows : list models.Product) (cats : list models.Category)
  : gormdb.DB :=
  {| gormdb.First_product_where_code := fun code =>
       match find (fun p => (models.Product_Code p =? code)%string) rows with
       | Some p => (p, None)
       | None => (models.Product_zero, Some gorm.ErrRecordNotFound)
       end;
     gormdb.Create_category := fun c =>
       if existsb (fun c' =>
            (models.Category_Code c' =? models.Category_Code c)%string) cats
       then Some gorm.ErrDuplicatedKey
       else None |}.

(** [MockProductRepo] of the tests with [GetByCodeFunc] set: every other
    method returns its zero values and a nil error. *)
Definition MockProductRepo
  (GetByCodeFunc : string -> models.Product * option errors.error)
  : implementation products.Repository unit :=
  fun X call s =>
    match call in products.Repository X return X * unit with
    | products.ListAll => (([], None), s)
    | products.List _ => (([], None), s)
    | products.GetByID _ => ((models.Product_zero, None), s)
    | products.GetByCode code => (GetByCodeFunc code, s)
    | products.GetByCategory _ => (([], None), s)
    end.

(** [MockCategoryRepo] of the tests with [CreateFunc] set. *)
Definition MockCategoryRepo
  (CreateFunc : models.Category -> option errors.error)
  : implementation categoryRepo.Repository unit :=
  fun X call s =>
    match call in categoryRepo.Repository X return X * unit with
    | categoryRepo.ListAll => (([], None), s)
    | categoryRepo.Create newCategory => (CreateFunc newCategory, s)
    | categoryRepo.GetByID _ => ((EmptyString, None), s)
    | categoryRepo.GetByCode _ => ((EmptyString, None), s)
    | categoryRepo.GetProducts _ => (([], None), s)
    end.

End sample.

(* ===================================================================== *)
(** * The statements the gorm repositories send

    What a chain of gorm calls builds before it is executed: the clauses,
    each with its SQL text and, apart from it, the values bound to its
    placeholders. *)

Module gormstmt.

(** A value bound to a placeholder. *)
Inductive arg : Type :=
| arg_string (s : string)
| arg_decimal (d : decimal.Decimal)
| arg_int (n : Z).

(** [Where(query, args...)] *)
Record condition : Type := mkCondition {
  query : string;
  args : list arg
}.

Record Statement : Type := mkStatement {
  model : option string;
  preloads : list string;
  joins : list string;
  wheres : list condition;
  orders : list string;
  offset : option Z;
  limit : option Z
}.

(** [db.WithContext(ctx)]: a statement without clauses. *)
Definition WithContext : Statement :=
  {| model := None; preloads := []; joins := []; wheres := [];
     orders := []; offset := None; limit := None |}.

Definition Model (name : string) (st : Statement) : Statement :=
  {| model := Some name; preloads := preloads st; joins := joins st;
     wheres := wheres st; orders := orders st; offset := offset st;
     limit := limit st |}.

Definition Preload (name : string) (st : Statement) : Statement :=
  {| model := model st; preloads := preloads st ++ [name];
     joins := joins st; wheres := wheres st; orders := orders st;
     offset := offset st; limit := limit st |}.

Definition Joins (q : string) (st : Statement) : Statement :=
  {| model := model st; preloads := preloads st; joins := joins st ++ [q];
     wheres := wheres st; orders := orders st; offset := offset st;
     limit := limit st |}.

Definition Where (q : string) (a : list arg) (st : Statement) : Statement :=
  {| model := model st; preloads := preloads st; joins := joins st;
     wheres := wheres st ++ [{| query := q; args := a |}];
     orders := orders st; offset := offset st; limit := limit st |}.

Definition Order (o : string) (st : Statement) : Statement :=
  {| model := model st; preloads := preloads st; joins := joins st;
     wheres := wheres st; orders := orders st ++ [o]; offset := offset st;
     limit := limit st |}.

Definition Offset (n : Z) (st : Statement) : Statement :=
  {| model := model st; preloads := preloads st; joins := joins st;
     wheres := wheres st; orders := orders st; offset := Some n;
     limit := limit st |}.

Definition Limit (n : Z) (st : Statement) : Statement :=
  {| model := model st; preloads := preloads st; joins := joins st;
     wheres := wheres st; orders := orders st; offset := offset st;
     limit := Some n |}.

(** The store behind the handle: for each finisher, what executing the
    statement leaves in the destination and in [.Error].  [First] takes
    the inline conditions of the call besides the statement. *)
Record Conn : Type := mkConn {
  Find_products : Statement -> list models.Product * option errors.error;
  First_product :
    Statement -> list arg -> models.Product * option errors.error;
  Find_categories : Statement -> list models.Category * option errors.error;
  First_category :
    Statement -> list arg -> models.Category * option errors.error;
  Create : models.Category -> option errors.error
}.

End gormstmt.

(* ===================================================================== *)
(** * [app/repos/products], the gorm repository in full *)

Module productsGorm.

(** [func (r *GormRepo) ListAll] *)
Definition ListAll (conn : gormstmt.Conn)
  : list models.Product * option errors.error :=
  let '(products, err) :=
    gormstmt.Find_products conn
      (gormstmt.Preload "Variants" gormstmt.WithContext) in
  match err with
  | Some e => ([], Some e)
  | None => (products, None)
  end.

(** The statement [List] builds from the filters. *)
Definition List_statement (filters : products.SearchFilters)
  : gormstmt.Statement :=
  let query :=
    gormstmt.Preload "Category"
      (gormstmt.Preload "Variants"
         (gormstmt.Model "Product" gormstmt.WithContext)) in
  let query :=
    if negb (products.Category filters =? "")%string then
      gormstmt.Where "categories.code = ?"
        [gormstmt.arg_string (products.Category filters)]
        (gormstmt.Joins
           "JOIN categories ON categories.id = products.category_id" query)
    else query in
  let query :=
    match products.PriceLessThan filters with
    | Some p => gormstmt.Where "price < ?" [gormstmt.arg_decimal p] query
    | None => query
    end in
  gormstmt.Limit (products.Limit filters)
    (gormstmt.Offset (products.Offset filters)
       (gormstmt.Order "products.id ASC" query)).

(** [func (r *GormRepo) List] *)
Definition List (conn : gormstmt.Conn) (filters : products.SearchFilters)
  : list models.Product * option errors.error :=
  let '(products, err) :=
    gormstmt.Find_products conn (List_statement filters) in
  match err with
  | Some e => ([], Some e)
  | None => (products, None)
  end.

(** [func (r *GormRepo) GetByID] *)
Definition GetByID (conn : gormstmt.Conn) (id : string)
  : models.Product * option errors.error :=
  let '(product, err) :=
    gormstmt.First_product conn
      (gormstmt.Preload "Variants" gormstmt.WithContext)
      [gormstmt.arg_string id] in
  match err with
  | Some e =>
      if errors.Is e errors.ErrRecordNotFound
      then (models.Product_zero, None)
      else (models.Product_zero, Some e)
  | None => (product, None)
  end.

(** The statement of [GetByCode]. *)
Definition GetByCode_statement (code : string) : gormstmt.Statement :=
  gormstmt.Where "code = ?" [gormstmt.arg_string code]
    (gormstmt.Preload "Variants" gormstmt.WithContext).

(** The handle as [GetByCode] and the category [Create] use it. *)
Definition DB (conn : gormstmt.Conn) : gormdb.DB :=
  {| gormdb.First_product_where_code := fun code =>
       gormstmt.First_product conn (GetByCode_statement code) [];
     gormdb.Create_category := gormstmt.Create conn |}.

(** [func (r *GormRepo) GetByCode] *)
Definition GetByCode (conn : gormstmt.Conn) (code : string)
  : models.Product * option errors.error :=
  products.GormRepo_GetByCode (DB conn) code.

(** [func (r *GormRepo) GetByCategory] *)
Definition GetByCategory (conn : gormstmt.Conn) (category : string)
  : list models.Product * option errors.error :=
  let '(products, err) :=
    gormstmt.Find_products conn
      (gormstmt.Preload "Category"
         (gormstmt.Preload "Variants"
            (gormstmt.Where "categories.code = ?"
               [gormstmt.arg_string category]
               (gormstmt.Joins
                  "JOIN categories ON categories.id = products.category_id"
                  gormstmt.WithContext)))) in
  match err with
  | Some e => ([], Some e)
  | None => (products, None)
  end.

(** [*GormRepo] as a [Repository]; the reads leave the store as it is. *)
Definition GormRepo (conn : gormstmt.Conn)
  : implementation products.Repository unit :=
  fun X call s =>
    match call in products.Repository X return X * unit with
    | products.ListAll => (ListAll conn, s)
    | products.List filters => (List conn filters, s)
    | products.GetByID id => (GetByID conn id, s)
    | products.GetByCode code => (GetByCode conn code, s)
    | products.GetByCategory category => (GetByCategory conn category, s)
    end.

End productsGorm.

(* ===================================================================== *)
(** * [app/repos/category], the gorm repository in full *)

Module categoryGorm.

(** [func (r *GormRepo) ListAll] *)
Definition ListAll (conn : gormstmt.Conn)
  : list models.Category * option errors.error :=
  let '(categories, err) :=
    gormstmt.Find_categories conn gormstmt.WithContext in
  match err with
  | Some e => ([], Some e)
  | None => (categories, None)
  end.

(** [func (r *GormRepo) Create] *)
Definition Create (conn : gormstmt.Conn) (newCategory : models.Category)
  : option errors.error :=
  categoryRepo.GormRepo_Create (productsGorm.DB conn) newCategory.

(** [func (r *GormRepo) GetByID]: the code of the category. *)
Definition GetByID (conn : gormstmt.Conn) (id : Z)
  : string * option errors.error :=
  let '(category, err) :=
    gormstmt.First_category conn gormstmt.WithContext
      [gormstmt.arg_int id] in
  match err with
  | Some e =>
      if errors.Is e errors.ErrRecordNotFound
      then (EmptyString, None)
      else (EmptyString, Some e)
  | None => (models.Category_Code category, None)
  end.

(** [func (r *GormRepo) GetByCode]: the name of the category. *)
Definition GetByCode (conn : gormstmt.Conn) (code : string)
  : string * option errors.error :=
  let '(category, err) :=
    gormstmt.First_category conn
      (gormstmt.Where "code = ?" [gormstmt.arg_string code]
         gormstmt.WithContext) [] in
  match err with
  | Some e =>
      if errors.Is e errors.ErrRecordNotFound
      then (EmptyString, None)
      else (EmptyString, Some e)
  | None => (models.Category_Name category, None)
  end.

(** [func (r *GormRepo) GetProducts] *)
Definition GetProducts (conn : gormstmt.Conn) (code : string)
  : list models.Product * option errors.error :=
  let '(category, err) :=
    gormstmt.First_category conn
      (gormstmt.Where "code = ?" [gormstmt.arg_string code]
         (gormstmt.Preload "Products.Variants" gormstmt.WithContext)) [] in
  match err with
  | Some e =>
      if errors.Is e errors.ErrRecordNotFound
      then ([], None)
      else ([], Some e)
  | None => (models.Category_Products category, None)
  end.

(** [*GormRepo] as a [Repository].  What [Create] changes in the store is
    not followed: a handler performs one call. *)
Definition GormRepo (conn : gormstmt.Conn)
  : implementation categoryRepo.Repository unit :=
  fun X call s =>
    match call in categoryRepo.Repository X return X * unit with
    | categoryRepo.ListAll => (ListAll conn, s)
    | categoryRepo.Create newCategory => (Create conn newCategory, s)
    | categoryRepo.GetByID id => (GetByID conn id, s)
    | categoryRepo.GetByCode code => (GetByCode conn code, s)
    | categoryRepo.GetProducts code => (GetProducts conn code, s)
    end.

End categoryGorm.

(* ===================================================================== *)
(** * Notions for the properties of the handlers and repositories *)

Module props.

(** What a handler answered, and the calls it made, against a repository. *)
Definition response {E : Type -> Type} {S R : Type}
  (repo : implementation E S) (p : prog E R) (s : S) : R :=
  fst (fst (run repo p s)).

Definition calls {E : Type -> Type} {S R : Type}
  (repo : implementation E S) (p : prog E R) (s : S) : list (call E) :=
  snd (run repo p s).

(** The DTO of a category: its code and its name. *)
Definition category_dto (c : models.Category) : category.Category :=
  {| category.Code := models.Category_Code c;
     category.Name := models.Category_Name c |}.

(** The SQL text of a statement: everything but the bound values and the
    two numbers of the page. *)
Definition texts (st : gormstmt.Statement)
  : option string * list string * list string * list string * list string :=
  (gormstmt.model st, gormstmt.preloads st, gormstmt.joins st,
   map gormstmt.query (gormstmt.wheres st), gormstmt.orders st).

(** The values bound to the placeholders of a statement, in order. *)
Definition bound (st : gormstmt.Statement) : list gormstmt.arg :=
  concat (map gormstmt.args (gormstmt.wheres st)).

(** A variant keeps everything but, possibly, its price, which is then the
    price of the product. *)
Definition same_but_price (price0 : decimal.Decimal)
  (v v' : models.Variant) : Prop :=
  models.Variant_ID v' = models.Variant_ID v
  /\ models.Variant_Name v' = models.Variant_Name v
  /\ models.Variant_SKU v' = models.Variant_SKU v
  /\ models.Variant_ProductID v' = models.Variant_ProductID v
  /\ (models.Variant_Price v' = models.Variant_Price v
      \/ models.Variant_Price v' = price0).

(** A product with other variants. *)
Definition with_variants (p : models.Product) (vs : list models.Variant)
  : models.Product :=
  {| models.Product_ID := models.Product_ID p;
     models.Product_Code := models.Product_Code p;
     models.Product_Price := models.Product_Price p;
     models.Product_Category := models.Product_Category p;
     models.Product_Variants := vs |}.

(** The result [res] of a single-row lookup, given what the statement left
    ([store]) and the value [found] the method takes from the row: an error
    comes from the store, is not a "record not found", and comes with the
    zero value; without error the value is that of the row, or the zero
    value when the store found no record. *)
Definition lookup_result {A : Type} (zero : A)
  (store_err : option errors.error) (found : A)
  (res : A * option errors.error) : Prop :=
  (forall e, snd res = Some e ->
     store_err = Some e
     /\ errors.Is e errors.ErrRecordNotFound = false
     /\ fst res = zero)
  /\ (snd res = None ->
      (store_err = None /\ fst res = found)
      \/ (exists e, store_err = Some e
                    /\ errors.Is e errors.ErrRecordNotFound = true
                    /\ fst res = zero)).

(** The result [res] of a method that lists rows: the error is the error of
    the store; with it the slice is nil, without it the rows are those of
    the store. *)
Definition list_result {A : Type}
  (store : list A * option errors.error)
  (res : list A * option errors.error) : Prop :=
  snd res = snd store
  /\ (snd res = None -> fst res = fst store)
  /\ (snd res <> None -> fst res = []).

End props.

(* ===================================================================== *)
(** * A store for the examples *)

Module fixtures.

(** A store that answers every [Find] with its rows, finds the product
    whose code is bound to the statement, and finds no category. *)
Definition conn (rows : list models.Product) (cats : list models.Category)
  : gormstmt.Conn :=
  {| gormstmt.Find_products := fun _ => (rows, None);
     gormstmt.First_product := fun st _ =>
       match props.bound st with
       | [gormstmt.arg_string code] =>
           gormdb.First_product_where_code (sample.store rows cats) code
       | _ => (models.Product_zero, Some gorm.ErrRecordNotFound)
       end;
     gormstmt.Find_categories := fun _ => (cats, None);
     gormstmt.First_category := fun _ _ =>
       (models.Category_zero, Some gorm.ErrRecordNotFound);
     gormstmt.Create := gormdb.Create_category (sample.store rows cats) |}.

(** A store that is down. *)
Definition down : gormstmt.Conn :=
  let e := errors.New "database connection failed" in
  {| gormstmt.Find_products := fun _ => ([], Some e);
     gormstmt.First_product := fun _ _ => (models.Product_zero, Some e);
     gormstmt.Find_categories := fun _ => ([], Some e);
     gormstmt.First_category := fun _ _ => (models.Category_zero, Some e);
     gormstmt.Create := fun _ => Some e |}.

(** A request for [GET /catalog] with the four query parameters. *)
Definition get_list (offset limit priceLessThan category : string)
  : catalog.Request :=
  {| catalog.URL_Query_Get := fun key =>
       if (key =? "offset")%string then offset
       else if (key =? "limit")%string then limit
       else if (key =? "priceLessThan")%string then priceLessThan
       else if (key =? "category")%string then category
       else EmptyString;
     catalog.PathValue := fun _ => EmptyString |}.

End fixtures.

(* ===================================================================== *)
(** * Arithmetic of [int] *)

Lemma wrap_int_fits (z : Z) : spec.fits_int z -> wrap_int z = z.
Proof.
  unfold spec.fits_int, wrap_int, minInt, maxInt. intros Hz.
  rewrite Z.mod_small; lia.
Qed.

Lemma wrap_int_add_l (a b : Z) : wrap_int (wrap_int a + b) = wrap_int (a + b).
Proof.
  unfold wrap_int. f_equal.
  replace (((a + 2 ^ 63) mod 2 ^ 64 - 2 ^ 63 + b + 2 ^ 63))
    with ((a + 2 ^ 63) mod 2 ^ 64 + b) by ring.
  rewrite Zplus_mod_idemp_l. f_equal. ring.
Qed.

Lemma wrap_int_0 : wrap_int 0 = 0.
Proof. reflexivity. Qed.

Lemma len_nonneg {A : Type} (l : list A) : 0 <= len l.
Proof. unfold len. lia. Qed.

Lemma variants_total_nonneg (ps : list models.Product) :
  0 <= spec.variants_total ps.
Proof.
  induction ps as [|p ps IH]; simpl; [lia|].
  pose proof (len_nonneg (models.Product_Variants p)). lia.
Qed.

(* ===================================================================== *)
(** * The response assembler *)

Section Assembler.

Context {F : Float64}.

(** The first loop writes the slots [i], [i+1], ... of [respProducts], one
    per product and in their order. *)
Lemma prepareResponse_products_fst (ps : list models.Product) :
  forall (i : nat) (resp : list catalog.Product) (count : Z),
    (i + length ps <= length resp)%nat ->
    fst (catalog.prepareResponse_products ps i resp count) =
      take i resp ++ map spec.product_dto ps ++ drop (i + length ps) resp.
Proof.
  induction ps as [|p ps IH]; intros i resp count Hlen; simpl in *.
  - rewrite Nat.add_0_r. symmetry. apply take_drop.
  - rewrite IH by (rewrite length_insert; lia).
    rewrite (take_S_r _ i (spec.product_dto p))
      by (apply list_lookup_insert_eq; lia).
    rewrite take_insert_ge by lia.
    rewrite drop_insert_lt by lia.
    rewrite <- app_assoc. simpl.
    replace (i + S (length ps))%nat with (S (i + length ps)) by lia.
    reflexivity.
Qed.

(** It adds the lengths of the variant collections to the counter. *)
Lemma prepareResponse_products_snd (ps : list models.Product) :
  forall (i : nat) (resp : list catalog.Product) (count : Z),
    wrap_int count = count ->
    snd (catalog.prepareResponse_products ps i resp count) =
      wrap_int (count + spec.variants_total ps).
Proof.
  induction ps as [|p ps IH]; intros i resp count Hcount; simpl.
  - rewrite Z.add_0_r. symmetry. exact Hcount.
  - set (n := len (models.Product_Variants p)).
    assert (Hstep : (if n >? 0 then wrap_int (count + n) else count)
                    = wrap_int (count + n)).
    { destruct (Z.gtb_spec n 0) as [Hpos|Hzero]; [reflexivity|].
      pose proof (len_nonneg (models.Product_Variants p)).
      replace n with 0 by (subst n; lia).
      rewrite Z.add_0_r. symmetry. exact Hcount. }
    rewrite Hstep.
    rewrite IH.
    + rewrite wrap_int_add_l. f_equal. ring.
    + rewrite <- (Z.add_0_r (wrap_int (count + n))) at 1.
      rewrite wrap_int_add_l. f_equal. ring.
Qed.

(** The second loop appends the emitted form of each variant, in order. *)
Lemma prepareResponse_variants_map (price0 : decimal.Decimal)
  (vs : list models.Variant) :
  forall acc : list models.Variant,
    catalog.prepareResponse_variants price0 vs acc =
      acc ++ map (spec.emitted price0) vs.
Proof.
  induction vs as [|v vs IH]; intros acc; simpl.
  - symmetry. apply app_nil_r.
  - rewrite IH, <- app_assoc. reflexivity.
Qed.

(** The three fields of the assembled response. *)
Lemma prepareResponse_fields (dbProducts : list models.Product)
  (includeVariants : bool) :
  catalog.prepareResponse dbProducts includeVariants =
    {| catalog.Products := map spec.product_dto dbProducts;
       catalog.ProductsAvailable := wrap_int (spec.variants_total dbProducts);
       catalog.Variants :=
         if includeVariants then
           match dbProducts with
           | p0 :: _ =>
               Some (map (spec.emitted (models.Product_Price p0))
                       (models.Product_Variants p0))
           | [] => None
           end
         else None |}.
Proof.
  unfold catalog.prepareResponse.
  pose proof (prepareResponse_products_fst dbProducts 0
                (replicate (length dbProducts) catalog.Product_zero) 0) as Hfst.
  pose proof (prepareResponse_products_snd dbProducts 0
                (replicate (length dbProducts) catalog.Product_zero) 0
                wrap_int_0) as Hsnd.
  destruct (catalog.prepareResponse_products dbProducts 0
              (replicate (length dbProducts) catalog.Product_zero) 0)
    as [respProducts count].
  simpl in Hfst, Hsnd.
  rewrite Hfst by (rewrite length_replicate; lia).
  rewrite Hsnd. simpl.
  rewrite drop_ge by (rewrite length_replicate; lia).
  rewrite app_nil_r.
  destruct includeVariants; simpl; [|reflexivity].
  destruct dbProducts as [|p0 rest]; simpl; [reflexivity|].
  replace (len (p0 :: rest) >? 0) with true.
  - rewrite prepareResponse_variants_map. reflexivity.
  - symmetry. apply Z.gtb_lt. unfold len. simpl. lia.
Qed.

(** The price a variant is emitted with. *)
Lemma emitted_price (price0 : decimal.Decimal) (v : models.Variant) :
  models.Variant_Price (spec.emitted price0 v)
    = if decimal.eq_Zero (models.Variant_Price v) then price0
      else models.Variant_Price v.
Proof.
  unfold spec.emitted.
  destruct (decimal.eq_Zero (models.Variant_Price v)); reflexivity.
Qed.

(** Only a price of exactly zero passes the test of the second loop. *)
Lemma eq_Zero_exactly_zero (d : decimal.Decimal) :
  decimal.eq_Zero d = true -> spec.exactly_zero d.
Proof.
  unfold decimal.eq_Zero, spec.exactly_zero, decimal.to_Q.
  destruct (decimal.value d); try discriminate.
  intros _. simpl. apply Qmult_0_l.
Qed.

(** The list handler never asks for variants. *)
Lemma HandleGet_without_variants (r : catalog.Request)
  (S : Type) (repo : implementation products.Repository S) (s : S)
  (data : catalog.Response) :
  fst (fst (run repo (catalog.HandleGet r) s)) = api.OKResponse data ->
  catalog.Variants data = None.
Proof.
  unfold catalog.HandleGet. cbn [run].
  destruct (repo _ _ s) as [[dbProducts [e|]] s1]; cbn [run fst].
  - discriminate.
  - intros Hdata. injection Hdata as <-.
    rewrite prepareResponse_fields. reflexivity.
Qed.

(** C6. [ProductsAvailable] is the sum, over all input products, of the
    lengths of their variant collections (a product without variants adds
    0), held in an [int]: it is that sum reduced to 64 bits, so it is the
    sum itself whenever the sum does not exceed the largest [int]; for two
    products with 2 variants and none it is 2. *)
Theorem ProductsAvailable_is_variants_total
  (dbProducts : list models.Product) (includeVariants : bool) :
  catalog.ProductsAvailable (catalog.prepareResponse dbProducts includeVariants)
    = wrap_int (spec.variants_total dbProducts)
  /\ (spec.variants_total dbProducts <= maxInt ->
      catalog.ProductsAvailable
        (catalog.prepareResponse dbProducts includeVariants)
        = spec.variants_total dbProducts)
  /\ (forall p q : models.Product,
        length (models.Product_Variants p) = 2%nat ->
        length (models.Product_Variants q) = 0%nat ->
        catalog.ProductsAvailable
          (catalog.prepareResponse [p; q] includeVariants) = 2).
Proof.
  rewrite prepareResponse_fields. simpl.
  split; [reflexivity|]. split.
  - intros Hmax. apply wrap_int_fits. split; [|exact Hmax].
    pose proof (variants_total_nonneg dbProducts). unfold minInt. lia.
  - intros p q Hp Hq. rewrite prepareResponse_fields. simpl.
    unfold len. rewrite Hp, Hq. reflexivity.
Qed.

(** C10. The [Products] array of the response has the length of the input,
    and its i-th entry is the DTO of the i-th input product: its code, its
    price as a float, the name of its category.  Nothing is dropped,
    duplicated or reordered. *)
Theorem Products_follow_the_input
  (dbProducts : list models.Product) (includeVariants : bool) :
  let resp := catalog.prepareResponse dbProducts includeVariants in
  length (catalog.Products resp) = length dbProducts
  /\ (forall i : nat,
        catalog.Products resp !! i = spec.product_dto <$> dbProducts !! i)
  /\ catalog.Products resp = map spec.product_dto dbProducts.
Proof.
  simpl. rewrite prepareResponse_fields. simpl.
  split; [apply length_map|]. split; [|reflexivity].
  intros i. apply list_lookup_fmap.
Qed.

(** C2. With [includeVariants] and a non-empty input the response carries
    the variants of the first product, and of no other: the emitted
    collection is the first product's, variant by variant, whatever
    follows it in the input.  Without [includeVariants], or for an empty
    input, the field is the nil slice.  For a single product without
    variants and [includeVariants] it is an empty slice, not nil. *)
Theorem Variants_of_the_first_product_only :
  (forall (p0 : models.Product) (rest : list models.Product),
      catalog.Variants (catalog.prepareResponse (p0 :: rest) true)
        = Some (map (spec.emitted (models.Product_Price p0))
                  (models.Product_Variants p0)))
  /\ (forall dbProducts : list models.Product,
        catalog.Variants (catalog.prepareResponse dbProducts false) = None)
  /\ (forall includeVariants : bool,
        catalog.Variants (catalog.prepareResponse [] includeVariants) = None)
  /\ (forall p0 : models.Product,
        models.Product_Variants p0 = [] ->
        catalog.Variants (catalog.prepareResponse [p0] true) = Some []).
Proof.
  repeat split; intros; rewrite prepareResponse_fields; simpl.
  - reflexivity.
  - reflexivity.
  - destruct includeVariants; reflexivity.
  - rewrite H. reflexivity.
Qed.

(** C1, at the inputs that decide it.  The assembler compares the stored
    price with [decimal.Zero] by [==], which on the struct compares the
    pointer to the coefficient and the exponent.  The variant built with
    [decimal.Zero] itself is emitted with the price of the product, and the
    variant priced 120 with its own price, as the tests expect.  The
    variant whose price of exactly zero was read from the store is emitted
    with that price of zero, not with the 100.50 of the product. *)
Theorem zero_price_from_the_store_is_not_inherited :
  let p := sample.prod001 [sample.medium; sample.large; sample.small] in
  spec.exactly_zero (models.Variant_Price sample.small)
  /\ catalog.Variants (catalog.prepareResponse [p] true)
       = Some [spec.with_price sample.medium (models.Product_Price p);
               sample.large;
               sample.small]
  /\ decimal.Equal (models.Variant_Price sample.small)
       (models.Product_Price p) = false.
Proof.
  intros p. split; [reflexivity|]. split; [|reflexivity].
  rewrite prepareResponse_fields. reflexivity.
Qed.

End Assembler.

(* ===================================================================== *)
(** * The validators *)

Section Validators.

Lemma pow10_pos (k : Z) : 0 <= k -> 0 < 10 ^ k.
Proof. intros Hk. apply Z.pow_pos_nonneg; lia. Qed.

(** Against [decimal.Zero], [Cmp] tells the sign of the coefficient. *)
Lemma GreaterThan_Zero (d : decimal.Decimal) :
  decimal.GreaterThan d decimal.Zero = (0 <? decimal.deref (decimal.value d)).
Proof.
  unfold decimal.GreaterThan, decimal.Cmp. cbn [decimal.Zero decimal.exp
    decimal.value decimal.deref]. rewrite Z.mul_0_l.
  set (a := decimal.deref (decimal.value d)).
  set (k := decimal.exp d - Z.min (decimal.exp d) 1).
  pose proof (pow10_pos k ltac:(subst k; lia)) as Hpow.
  destruct (Z.ltb_spec 0 a) as [Hpos|Hneg].
  - replace (a * 10 ^ k ?= 0) with Gt; [reflexivity|].
    symmetry. apply Z.compare_gt_iff. nia.
  - destruct (a * 10 ^ k ?= 0) eqn:Hcmp; try reflexivity.
    apply Z.compare_gt_iff in Hcmp. nia.
Qed.

(** So does the number the decimal denotes. *)
Lemma strictly_positive_coefficient (d : decimal.Decimal) :
  spec.strictly_positive d = (0 <? decimal.deref (decimal.value d)).
Proof.
  unfold spec.strictly_positive, decimal.to_Q.
  set (a := decimal.deref (decimal.value d)).
  pose proof (Qpower_0_lt 10 (decimal.exp d) ltac:(reflexivity)) as Hpow.
  destruct (10 ^ decimal.exp d)%Q as [n m] eqn:Hp.
  unfold Qlt in Hpow. simpl in Hpow.
  destruct (Z.ltb_spec 0 a) as [Hpos|Hneg].
  - apply negb_true_iff. apply not_true_is_false. intros Hle.
    apply Qle_bool_iff in Hle. unfold Qle in Hle. simpl in Hle. nia.
  - apply negb_false_iff. apply Qle_bool_iff.
    unfold Qle. simpl. nia.
Qed.

Lemma GreaterThan_Zero_strictly_positive (d : decimal.Decimal) :
  decimal.GreaterThan d decimal.Zero = spec.strictly_positive d.
Proof.
  rewrite GreaterThan_Zero, strictly_positive_coefficient. reflexivity.
Qed.

(** One step of the case analysis of a guarded assignment. *)
Ltac guard_step :=
  match goal with
  | |- context [negb (?s =? "")%string] => destruct (s =? "")%string
  | |- context [match ?x with Some _ => _ | None => _ end] => destruct x
  | |- context [if ?b then _ else _] => destruct b
  end.

(** The four guarded assignments touch one field each. *)
Lemma validateProductFilters_fields
  (offset limit priceLimit category : string) :
  catalog.validateProductFilters offset limit priceLimit category =
    {| products.Offset :=
         if negb (offset =? "")%string then
           match strconv.Atoi offset with
           | Some o => if o >=? 0 then o else 0
           | None => 0
           end
         else 0;
       products.Limit :=
         if negb (limit =? "")%string then
           match strconv.Atoi limit with
           | Some l => if (l >? 0) && (l <=? 100) then l else 10
           | None => 10
           end
         else 10;
       products.Category :=
         if negb (category =? "")%string then category else EmptyString;
       products.PriceLessThan :=
         if negb (priceLimit =? "")%string then
           match decimal.NewFromString priceLimit with
           | Some p =>
               if decimal.GreaterThan p decimal.Zero then Some p else None
           | None => None
           end
         else None |}.
Proof.
  unfold catalog.validateProductFilters.
  repeat (guard_step; cbn [negb]); reflexivity.
Qed.

(** C4. Filter validation is a total function of its four strings; it
    yields: as [Offset] the parsed integer when [Atoi] succeeds with a value
    that is not negative, else 0; as [Limit] the parsed integer when
    [Atoi] succeeds with a value from 1 to 100, else 10, so that "1" and
    "100" give 1 and 100; as [PriceLessThan] the parsed decimal when
    [NewFromString] succeeds with a strictly positive number, else nil; as
    [Category] the input when it is not empty, else the empty string that
    stands for no category. *)
Theorem validateProductFilters_clamps
  (offset limit priceLimit category : string) :
  let filters :=
    catalog.validateProductFilters offset limit priceLimit category in
  products.Offset filters
    = match strconv.Atoi offset with
      | Some o => if 0 <=? o then o else 0
      | None => 0
      end
  /\ products.Limit filters
     = match strconv.Atoi limit with
       | Some l => if (1 <=? l) && (l <=? 100) then l else 10
       | None => 10
       end
  /\ products.PriceLessThan filters
     = match decimal.NewFromString priceLimit with
       | Some p => if spec.strictly_positive p then Some p else None
       | None => None
       end
  /\ products.Category filters
     = (if (category =? "")%string then EmptyString else category)
  /\ products.Limit
       (catalog.validateProductFilters offset "1" priceLimit category) = 1
  /\ products.Limit
       (catalog.validateProductFilters offset "100" priceLimit category) = 100.
Proof.
  intros filters. subst filters.
  assert (Hlimit : forall l : string,
    products.Limit (catalog.validateProductFilters offset l priceLimit category)
    = match strconv.Atoi l with
      | Some n => if (1 <=? n) && (n <=? 100) then n else 10
      | None => 10
      end).
  { intros l. rewrite validateProductFilters_fields. cbn [products.Limit].
    destruct (String.eqb_spec l "") as [->|_]; [reflexivity|]. cbn [negb].
    destruct (strconv.Atoi l) as [n|]; [|reflexivity].
    replace (n >? 0) with (1 <=? n); [reflexivity|].
    destruct (Z.leb_spec 1 n), (Z.gtb_spec n 0); lia || reflexivity. }
  split; [|split; [|split; [|split; [|split]]]];
    try (rewrite Hlimit; reflexivity);
    rewrite validateProductFilters_fields.
  - cbn [products.Offset].
    destruct (String.eqb_spec offset "") as [->|_]; [reflexivity|]. cbn [negb].
    destruct (strconv.Atoi offset) as [o|]; [|reflexivity].
    rewrite Z.geb_leb. reflexivity.
  - cbn [products.PriceLessThan].
    destruct (String.eqb_spec priceLimit "") as [->|_]; [reflexivity|].
    cbn [negb].
    destruct (decimal.NewFromString priceLimit) as [p|]; [|reflexivity].
    rewrite GreaterThan_Zero_strictly_positive. reflexivity.
  - cbn [products.Category].
    destruct (category =? "")%string; reflexivity.
Qed.

(** [\d] accepts the ten ASCII digits and nothing else. *)
Lemma is_digit_ascii_digit (c : ascii) :
  regexp.is_digit c = true <-> spec.ascii_digit c.
Proof.
  unfold regexp.is_digit, spec.ascii_digit. split.
  - intros H. apply andb_true_iff in H as [Hlo Hhi].
    apply N.leb_le in Hlo, Hhi.
    exists (nat_of_ascii c - 48)%nat.
    assert (Hc : nat_of_ascii c = N.to_nat (N_of_ascii c)) by reflexivity.
    split; [lia|].
    replace (48 + (nat_of_ascii c - 48))%nat with (nat_of_ascii c) by lia.
    symmetry. apply ascii_nat_embedding.
  - intros (n & Hn & ->).
    do 10 (destruct n as [|n]; [reflexivity|]). lia.
Qed.

(** The pattern begins with [^]: no match begins after the first byte. *)
Lemma search_pattern_inside (s : string) :
  regexp.search catalog.pattern false s = false.
Proof.
  induction s as [|c s IH]; simpl; [reflexivity|]. exact IH.
Qed.

(** The check as a test on the seven bytes of the code. *)
Lemma validateProductCode_bytes (code : string) :
  catalog.validateProductCode code =
    match code with
    | String c1 (String c2 (String c3 (String c4
        (String d1 (String d2 (String d3 EmptyString)))))) =>
        Ascii.eqb c1 "P" && Ascii.eqb c2 "R" && Ascii.eqb c3 "O"
        && Ascii.eqb c4 "D"
        && regexp.is_digit d1 && regexp.is_digit d2 && regexp.is_digit d3
    | _ => false
    end.
Proof.
  unfold catalog.validateProductCode, regexp.MatchString.
  destruct code as [|c1 [|c2 [|c3 [|c4 [|d1 [|d2 [|d3 [|x code]]]]]]]];
    cbn -[regexp.is_digit Ascii.eqb];
    rewrite ?search_pattern_inside;
    repeat match goal with
           | |- context [Ascii.eqb ?a ?b] => destruct (Ascii.eqb a b)
           | |- context [regexp.is_digit ?d] => destruct (regexp.is_digit d)
           end;
    reflexivity.
Qed.

(** C5. The check accepts a code if and only if it is exactly the literal
    PROD followed by exactly 3 ASCII digits; it accepts PROD001 and rejects
    PROD1, prod001, the empty string and PROD12A. *)
Theorem validateProductCode_iff :
  (forall code : string,
      catalog.validateProductCode code = true <-> spec.PROD_and_3_digits code)
  /\ catalog.validateProductCode "PROD001" = true
  /\ catalog.validateProductCode "PROD1" = false
  /\ catalog.validateProductCode "prod001" = false
  /\ catalog.validateProductCode "" = false
  /\ catalog.validateProductCode "PROD12A" = false.
Proof.
  split; [|repeat split; reflexivity].
  intros code. rewrite validateProductCode_bytes.
  unfold spec.PROD_and_3_digits. split.
  - destruct code as [|c1 [|c2 [|c3 [|c4 [|d1 [|d2 [|d3 [|x code]]]]]]]];
      try discriminate.
    intros H. repeat (apply andb_true_iff in H as [H ?]).
    repeat match goal with
           | E : Ascii.eqb _ _ = true |- _ => apply Ascii.eqb_eq in E; subst
           | E : regexp.is_digit _ = true |- _ =>
               apply is_digit_ascii_digit in E
           end.
    exists d1, d2, d3. repeat split; assumption.
  - intros (d1 & d2 & d3 & H1 & H2 & H3 & ->).
    apply is_digit_ascii_digit in H1, H2, H3.
    cbn -[regexp.is_digit]. rewrite H1, H2, H3. reflexivity.
Qed.

End Validators.

(* ===================================================================== *)
(** * The handlers *)

Section Handlers.

Context {F : Float64}.

(** C8. For a code that fails the format check the detail handler answers
    400 and is a program without any call of the repository: run against
    any repository, it leaves the state of the store as it was and performs
    no call. *)
Theorem HandleGetSpecific_rejects_before_the_store (r : catalog.Request) :
  catalog.validateProductCode (catalog.PathValue r "code") = false ->
  catalog.HandleGetSpecific r
    = Ret (api.ErrorResponse http.StatusBadRequest
             catalog.invalid_code_message)
  /\ http.StatusBadRequest = 400
  /\ (forall (S : Type) (repo : implementation products.Repository S) (s : S),
        run repo (catalog.HandleGetSpecific r) s
          = (api.ErrorResponse 400 catalog.invalid_code_message, s, [])).
Proof.
  intros Hcode.
  assert (Hprog : catalog.HandleGetSpecific r
            = Ret (api.ErrorResponse http.StatusBadRequest
                     catalog.invalid_code_message)).
  { unfold catalog.HandleGetSpecific. rewrite Hcode. reflexivity. }
  split; [exact Hprog|]. split; [reflexivity|].
  intros S repo s. rewrite Hprog. reflexivity.
Qed.

(** C3. For a code that passes the format check and for which the store
    has no row, [GetByCode] of the gorm repository returns the zero-valued
    product and a nil error; the detail handler, run against a repository
    that answers so, performs that one call and answers 200 with a
    response of exactly one empty product, no product available and an
    empty variant collection. *)
Theorem HandleGetSpecific_no_such_product
  (r : catalog.Request) (db : gormdb.DB) :
  let code := catalog.PathValue r "code" in
  catalog.validateProductCode code = true ->
  gormdb.no_row (gormdb.First_product_where_code db code) ->
  products.GormRepo_GetByCode db code = (models.Product_zero, None)
  /\ (forall (S : Type) (repo : implementation products.Repository S)
        (s s' : S),
        repo _ (products.GetByCode code) s
          = (products.GormRepo_GetByCode db code, s') ->
        run repo (catalog.HandleGetSpecific r) s
          = (api.OKResponse
               {| catalog.Products := [spec.empty_product];
                  catalog.ProductsAvailable := 0;
                  catalog.Variants := Some [] |},
             s', [existT _ (products.GetByCode code)])).
Proof.
  intros code Hcode (e & Herr & Hnot_found).
  assert (Hget : products.GormRepo_GetByCode db code
                 = (models.Product_zero, None)).
  { unfold products.GormRepo_GetByCode.
    destruct (gormdb.First_product_where_code db code) as [product err].
    simpl in Herr. subst err. rewrite Hnot_found. reflexivity. }
  split; [exact Hget|].
  intros S repo s s' Hrepo.
  unfold catalog.HandleGetSpecific. fold code. rewrite Hcode.
  cbn [negb run]. rewrite Hrepo, Hget. cbn [run].
  rewrite prepareResponse_fields. reflexivity.
Qed.

(** C7. Creating a category from a code and a name.  When either is empty
    the handler answers 400 and is a program without any call of the
    repository.  Otherwise it is the single call [Create] with the category
    made of the two fields, continued by: 200 when [Create] returns nil;
    409 (which is not 500) when it returns the conflict error; 500 with the
    text of the error for every other error.  The gorm repository returns
    the conflict error for a duplicated key reported by the store, so that
    such a violation is answered 409, and returns every other failure of
    the store as it is. *)
Theorem HandlePost_validates_then_creates (code name : string) :
  let r := spec.create_request code name in
  let newCategory := spec.new_category code name in
  ((code = EmptyString \/ name = EmptyString) ->
     category.HandlePost r
       = Ret (api.ErrorResponse http.StatusBadRequest
                "Code and name are required"))
  /\ (code <> EmptyString -> name <> EmptyString ->
      exists k,
        category.HandlePost r = Call (categoryRepo.Create newCategory) k
        /\ k None = Ret (api.OKResponse category.created)
        /\ (forall e : errors.error,
              errors.Error e = spec.conflict_text ->
              k (Some e)
                = Ret (api.ErrorResponse http.StatusConflict
                         spec.conflict_text))
        /\ (forall e : errors.error,
              errors.Error e <> spec.conflict_text ->
              k (Some e)
                = Ret (api.ErrorResponse http.StatusInternalServerError
                         (errors.Error e)))
        /\ (forall (db : gormdb.DB) (e : errors.error),
              gormdb.Create_category db newCategory = Some e ->
              errors.Is e errors.ErrDuplicatedKey = true ->
              k (categoryRepo.GormRepo_Create db newCategory)
                = Ret (api.ErrorResponse http.StatusConflict
                         spec.conflict_text))
        /\ (forall (db : gormdb.DB) (e : errors.error),
              gormdb.Create_category db newCategory = Some e ->
              errors.Is e errors.ErrDuplicatedKey = false ->
              categoryRepo.GormRepo_Create db newCategory = Some e))
  /\ http.StatusConflict <> http.StatusInternalServerError.
Proof.
  intros r newCategory. split; [|split; [|discriminate]].
  - intros [-> | ->]; unfold category.HandlePost; cbn.
    + reflexivity.
    + rewrite orb_true_r. reflexivity.
  - intros Hcode Hname.
    apply String.eqb_neq in Hcode, Hname.
    unfold category.HandlePost. cbn. rewrite Hcode, Hname. cbn.
    eexists. split; [reflexivity|]. cbn beta.
    split; [reflexivity|]. split; [|split; [|split]].
    + intros e He. rewrite He. reflexivity.
    + intros e He. apply String.eqb_neq in He.
      unfold spec.conflict_text in He. rewrite He. reflexivity.
    + intros db e Hdb Hdup. unfold categoryRepo.GormRepo_Create.
      fold newCategory. rewrite Hdb, Hdup. reflexivity.
    + intros db e Hdb Hdup. unfold categoryRepo.GormRepo_Create.
      rewrite Hdb, Hdup. reflexivity.
Qed.

(** C9. For a request with both fields and every error that [Create]
    returns, the handler answers 409 if and only if the text of the error
    is exactly "category code already exists"; for every other text it
    answers 500, also when the error is a duplicated key of the store that
    reached the handler under its own text. *)
Theorem HandlePost_conflict_iff_text
  (code name : string) (e : errors.error)
  (S : Type) (repo : implementation categoryRepo.Repository S) (s s' : S) :
  code <> EmptyString -> name <> EmptyString ->
  repo _ (categoryRepo.Create (spec.new_category code name)) s
    = (Some e, s') ->
  let resp :=
    fst (fst (run repo (category.HandlePost (spec.create_request code name))
                s)) in
  (api.status resp = http.StatusConflict
     <-> errors.Error e = "category code already exists"%string)
  /\ (errors.Error e <> "category code already exists"%string ->
      resp = api.ErrorResponse http.StatusInternalServerError
               (errors.Error e))
  /\ (errors.Is e errors.ErrDuplicatedKey = true ->
      errors.Error e <> "category code already exists"%string ->
      api.status resp = http.StatusInternalServerError).
Proof.
  intros Hcode Hname Hrepo resp.
  apply String.eqb_neq in Hcode, Hname.
  assert (Hresp : resp =
    if (errors.Error e =? "category code already exists")%string
    then api.ErrorResponse http.StatusConflict (errors.Error e)
    else api.ErrorResponse http.StatusInternalServerError (errors.Error e)).
  { subst resp. unfold category.HandlePost. cbn.
    rewrite Hcode, Hname. cbn.
    unfold spec.new_category in Hrepo. rewrite Hrepo. cbn.
    destruct (errors.Error e =? "category code already exists")%string;
      reflexivity. }
  rewrite Hresp.
  destruct (String.eqb_spec (errors.Error e) "category code already exists")
    as [Heq|Hne]; cbn.
  - split; [tauto|]. split; intros; contradiction.
  - split; [|split].
    + split; [discriminate|contradiction].
    + reflexivity.
    + reflexivity.
Qed.

End Handlers.

(* ===================================================================== *)
(** * The theorems at the inputs of the tests *)

Local Open Scope string_scope.

Lemma ProductsAvailable_is_variants_total_witness :
  catalog.ProductsAvailable
    (catalog.prepareResponse (F := sample.exact)
       [sample.prod001 [sample.medium; sample.large]; sample.prod002] false)
    = spec.variants_total
        [sample.prod001 [sample.medium; sample.large]; sample.prod002]
  /\ catalog.ProductsAvailable
       (catalog.prepareResponse (F := sample.exact)
          [sample.prod001 [sample.medium; sample.large]; sample.prod002] true)
     = 2.
Proof.
  split.
  - apply (proj1 (proj2 (ProductsAvailable_is_variants_total
                           (F := sample.exact) _ false))).
    vm_compute. discriminate.
  - apply (proj2 (proj2 (ProductsAvailable_is_variants_total
                           (F := sample.exact) [] true)));
      reflexivity.
Defined.

Lemma Variants_of_the_first_product_only_witness :
  catalog.Variants
    (catalog.prepareResponse (F := sample.exact) [sample.prod002] true)
    = Some [].
Proof.
  apply (proj2 (proj2 (proj2
           (Variants_of_the_first_product_only (F := sample.exact)))));
    reflexivity.
Defined.

Lemma validateProductCode_iff_witness :
  catalog.validateProductCode "PROD001" = true.
Proof.
  apply (proj2 (proj1 validateProductCode_iff "PROD001")).
  exists "0"%char, "0"%char, "1"%char.
  repeat split; [exists 0%nat | exists 0%nat | exists 1%nat];
    split; [lia | reflexivity | lia | reflexivity | lia | reflexivity].
Defined.

Lemma HandleGetSpecific_rejects_before_the_store_witness :
  run (sample.MockProductRepo (fun _ => (sample.prod002, None)))
      (catalog.HandleGetSpecific (F := sample.exact) (sample.get_code "PROD1"))
      tt
    = (api.ErrorResponse 400 catalog.invalid_code_message, tt, []).
Proof.
  apply (proj2 (proj2 (HandleGetSpecific_rejects_before_the_store
                         (F := sample.exact) (sample.get_code "PROD1")
                         ltac:(reflexivity)))).
Defined.

Lemma HandleGetSpecific_no_such_product_witness :
  let db := sample.store [sample.prod001 [sample.medium; sample.large]] [] in
  run (sample.MockProductRepo (products.GormRepo_GetByCode db))
      (catalog.HandleGetSpecific (F := sample.exact)
         (sample.get_code "PROD999")) tt
    = (api.OKResponse
         {| catalog.Products := [spec.empty_product];
            catalog.ProductsAvailable := 0;
            catalog.Variants := Some [] |},
       tt, [existT _ (products.GetByCode "PROD999")]).
Proof.
  intros db.
  apply (proj2 (HandleGetSpecific_no_such_product
                  (F := sample.exact) (sample.get_code "PROD999") db
                  ltac:(reflexivity)
                  (ex_intro _ gorm.ErrRecordNotFound
                     (conj eq_refl eq_refl)))).
  reflexivity.
Defined.

Lemma HandlePost_validates_then_creates_witness :
  category.HandlePost (spec.create_request "" "Electronics")
    = Ret (api.ErrorResponse 400 "Code and name are required")
  /\ exists k,
       category.HandlePost (spec.create_request "clothing" "Clothing")
         = Call (categoryRepo.Create (spec.new_category "clothing" "Clothing"))
             k
       /\ k (categoryRepo.GormRepo_Create
               (sample.store [] [sample.clothing])
               (spec.new_category "clothing" "Clothing"))
          = Ret (api.ErrorResponse 409 "category code already exists").
Proof.
  split.
  - apply (proj1 (HandlePost_validates_then_creates "" "Electronics")).
    left. reflexivity.
  - destruct (proj1 (proj2 (HandlePost_validates_then_creates
                              "clothing" "Clothing"))
                ltac:(discriminate) ltac:(discriminate))
      as (k & Hprog & _ & _ & _ & Hdup & _).
    exists k. split; [exact Hprog|].
    apply (Hdup (sample.store [] [sample.clothing]) gorm.ErrDuplicatedKey);
      reflexivity.
Defined.

Lemma HandlePost_conflict_iff_text_witness :
  api.status
    (fst (fst (run (sample.MockCategoryRepo
                      (fun _ => Some gorm.ErrDuplicatedKey))
                 (category.HandlePost
                    (spec.create_request "clothing" "Clothing")) tt)))
    = http.StatusInternalServerError.
Proof.
  apply (proj2 (proj2 (HandlePost_conflict_iff_text
                         "clothing" "Clothing" gorm.ErrDuplicatedKey unit
                         (sample.MockCategoryRepo
                            (fun _ => Some gorm.ErrDuplicatedKey)) tt tt
                         ltac:(discriminate) ltac:(discriminate)
                         ltac:(reflexivity))));
    [reflexivity | discriminate].
Defined.

(* ===================================================================== *)
(** * More on the response assembler *)

Local Close Scope string_scope.

Section AssemblerMore.

Context {F : Float64}.

Lemma variants_total_app (a b : list models.Product) :
  spec.variants_total (a ++ b)
    = spec.variants_total a + spec.variants_total b.
Proof.
  induction a as [|p a IH]; simpl; [reflexivity|]. rewrite IH. ring.
Qed.

Lemma wrap_int_add (x y : Z) :
  wrap_int (wrap_int x + wrap_int y) = wrap_int (x + y).
Proof.
  rewrite wrap_int_add_l, (Z.add_comm x), wrap_int_add_l.
  f_equal. ring.
Qed.

Lemma emitted_same_but_price (price0 : decimal.Decimal)
  (v : models.Variant) :
  props.same_but_price price0 v (spec.emitted price0 v).
Proof.
  unfold props.same_but_price, spec.emitted.
  destruct (decimal.eq_Zero (models.Variant_Price v)); simpl; tauto.
Qed.

Lemma emitted_idempotent (price0 : decimal.Decimal) (v : models.Variant) :
  spec.emitted price0 (spec.emitted price0 v) = spec.emitted price0 v.
Proof.
  unfold spec.emitted.
  destruct (decimal.eq_Zero (models.Variant_Price v)) eqn:Hv.
  - cbn [spec.with_price models.Variant_Price].
    destruct (decimal.eq_Zero price0); reflexivity.
  - rewrite Hv. reflexivity.
Qed.

(** X2. The emitted variants are the variants of the first product, one for
    one and in their order: each keeps its ID, name, SKU and product ID,
    and its price is either its own or that of the product. *)
Theorem emitted_variants_keep_identity
  (p0 : models.Product) (rest : list models.Product) :
  exists vs : list models.Variant,
    catalog.Variants (catalog.prepareResponse (p0 :: rest) true) = Some vs
    /\ length vs = length (models.Product_Variants p0)
    /\ Forall2 (props.same_but_price (models.Product_Price p0))
         (models.Product_Variants p0) vs.
Proof.
  rewrite prepareResponse_fields. cbn [catalog.Variants].
  eexists. split; [reflexivity|]. split; [apply length_map|].
  induction (models.Product_Variants p0) as [|v vs IH]; simpl.
  - constructor.
  - constructor; [apply emitted_same_but_price | exact IH].
Qed.

(** X3. The resolution of prices is final: assembling the detail response
    again from the variants it emitted emits the same variants; and when
    the price of the product is not [decimal.Zero] itself, no emitted
    variant carries [decimal.Zero]. *)
Theorem emitted_prices_are_final (p : models.Product) :
  (forall vs : list models.Variant,
      catalog.Variants (catalog.prepareResponse [p] true) = Some vs ->
      catalog.Variants
        (catalog.prepareResponse [props.with_variants p vs] true) = Some vs)
  /\ (decimal.eq_Zero (models.Product_Price p) = false ->
      forall vs : list models.Variant,
        catalog.Variants (catalog.prepareResponse [p] true) = Some vs ->
        Forall (fun v => decimal.eq_Zero (models.Variant_Price v) = false) vs).
Proof.
  split.
  - intros vs. rewrite !prepareResponse_fields.
    cbn [catalog.Variants props.with_variants models.Product_Price
         models.Product_Variants].
    intros Hvs. injection Hvs as <-. f_equal.
    rewrite map_map. apply map_ext. intros v. apply emitted_idempotent.
  - intros Hprice vs. rewrite prepareResponse_fields.
    cbn [catalog.Variants]. intros Hvs. injection Hvs as <-.
    apply Forall_forall. intros v' Hin.
    apply list_elem_of_In, in_map_iff in Hin.
    destruct Hin as (v & <- & _). rewrite emitted_price.
    destruct (decimal.eq_Zero (models.Variant_Price v)) eqn:Hv;
      [exact Hprice | exact Hv].
Qed.

(** X4. In a detail response the count is the number of emitted variants, as
    long as that number is one an [int] holds; with more products in the
    input the count is at least that number. *)
Theorem ProductsAvailable_counts_emitted_variants
  (p0 : models.Product) (rest : list models.Product) :
  spec.variants_total (p0 :: rest) <= maxInt ->
  exists vs : list models.Variant,
    catalog.Variants (catalog.prepareResponse (p0 :: rest) true) = Some vs
    /\ len vs
       <= catalog.ProductsAvailable (catalog.prepareResponse (p0 :: rest) true)
    /\ (rest = [] ->
        catalog.ProductsAvailable (catalog.prepareResponse [p0] true)
          = len vs).
Proof.
  intros Hmax. rewrite prepareResponse_fields.
  cbn [catalog.Variants catalog.ProductsAvailable].
  eexists. split; [reflexivity|].
  assert (Hlen : len (map (spec.emitted (models.Product_Price p0))
                        (models.Product_Variants p0))
                 = len (models.Product_Variants p0)).
  { unfold len. rewrite length_map. reflexivity. }
  rewrite Hlen.
  pose proof (variants_total_nonneg (p0 :: rest)) as Hnn.
  pose proof (variants_total_nonneg rest) as Hrest.
  rewrite wrap_int_fits by (unfold spec.fits_int, minInt; lia).
  split.
  - simpl. lia.
  - intros ->. rewrite prepareResponse_fields.
    cbn [catalog.ProductsAvailable].
    rewrite wrap_int_fits by (unfold spec.fits_int, minInt; lia).
    simpl. ring.
Qed.

(** X5. Assembling a concatenation: the products are those of the parts, in
    order; the count is the sum of the counts of the parts, as an [int];
    the variants are those the first part gives when it is not empty. *)
Theorem prepareResponse_app
  (a b : list models.Product) (includeVariants : bool) :
  catalog.Products (catalog.prepareResponse (a ++ b) includeVariants)
    = catalog.Products (catalog.prepareResponse a includeVariants)
      ++ catalog.Products (catalog.prepareResponse b includeVariants)
  /\ catalog.ProductsAvailable
       (catalog.prepareResponse (a ++ b) includeVariants)
     = wrap_int
         (catalog.ProductsAvailable (catalog.prepareResponse a includeVariants)
          + catalog.ProductsAvailable
              (catalog.prepareResponse b includeVariants))
  /\ (a <> [] ->
      catalog.Variants (catalog.prepareResponse (a ++ b) includeVariants)
        = catalog.Variants (catalog.prepareResponse a includeVariants)).
Proof.
  rewrite !prepareResponse_fields.
  cbn [catalog.Products catalog.ProductsAvailable catalog.Variants].
  split; [apply map_app|]. split.
  - rewrite variants_total_app, wrap_int_add. reflexivity.
  - intros Ha. destruct a as [|p a]; [contradiction|]. reflexivity.
Qed.

End AssemblerMore.

(* ===================================================================== *)
(** * More on the filter validator *)

Section ValidatorsMore.

(** [Atoi] yields values of [int] only. *)
Lemma Atoi_range (s : string) (n : Z) :
  strconv.Atoi s = Some n -> minInt <= n <= maxInt.
Proof.
  unfold strconv.Atoi, strconv.ParseInt, intSize, minInt, maxInt.
  match goal with
  | |- context [let '(_, _) := ?m in _] => destruct m as [neg body]
  end.
  destruct body as [|c body]; [discriminate|].
  destruct (strconv.digits (String c body) 0) as [un|]; [|discriminate].
  match goal with
  | |- context [if ?b then _ else _] => destruct b eqn:Hrange
  end; [|discriminate].
  intros H. injection H as <-.
  apply andb_true_iff in Hrange as [Hlo Hhi].
  apply Z.leb_le in Hlo, Hhi.
  change (2 ^ (64 - 1)) with (2 ^ 63) in Hlo, Hhi. lia.
Qed.

(** Offset and limit of the validated filters. *)
Lemma validated_page (offset limit priceLimit category : string) :
  let filters :=
    catalog.validateProductFilters offset limit priceLimit category in
  0 <= products.Offset filters <= maxInt
  /\ 1 <= products.Limit filters <= 100.
Proof.
  intros filters. subst filters. rewrite validateProductFilters_fields.
  cbn [products.Offset products.Limit]. split.
  - destruct (negb (offset =? "")%string); [|unfold maxInt; lia].
    destruct (strconv.Atoi offset) as [o|] eqn:Ho; [|unfold maxInt; lia].
    apply Atoi_range in Ho.
    destruct (Z.geb_spec o 0); unfold maxInt in *; lia.
  - destruct (negb (limit =? "")%string); [|lia].
    destruct (strconv.Atoi limit) as [l|]; [|lia].
    destruct ((l >? 0) && (l <=? 100)) eqn:Hl; [|lia].
    apply andb_true_iff in Hl as [Hlo Hhi].
    apply Z.gtb_lt in Hlo. apply Z.leb_le in Hhi. lia.
Qed.

(** X1. Whatever the four strings, the filters are within their bounds: the
    offset is not negative, the limit is from 1 to 100, and a price
    threshold, when there is one, is the decimal the text denotes and is
    strictly positive. *)
Theorem validateProductFilters_bounds
  (offset limit priceLimit category : string) :
  let filters :=
    catalog.validateProductFilters offset limit priceLimit category in
  0 <= products.Offset filters <= maxInt
  /\ 1 <= products.Limit filters <= 100
  /\ match products.PriceLessThan filters with
     | Some p =>
         decimal.NewFromString priceLimit = Some p
         /\ (0 < decimal.to_Q p)%Q
     | None => True
     end.
Proof.
  intros filters.
  destruct (validated_page offset limit priceLimit category) as [Ho Hl].
  fold filters in Ho, Hl. split; [exact Ho|]. split; [exact Hl|].
  clear Ho Hl. subst filters. rewrite validateProductFilters_fields.
  cbn [products.PriceLessThan].
  destruct (negb (priceLimit =? "")%string); [|exact I].
  destruct (decimal.NewFromString priceLimit) as [p|]; [|exact I].
  rewrite GreaterThan_Zero_strictly_positive.
  destruct (spec.strictly_positive p) eqn:Hp; [|exact I].
  split; [reflexivity|].
  unfold spec.strictly_positive in Hp. apply negb_true_iff in Hp.
  apply Qnot_le_lt. intros Hle. apply Qle_bool_iff in Hle. congruence.
Qed.

End ValidatorsMore.

(* ===================================================================== *)
(** * More on the handlers *)

Section HandlersMore.

Context {F : Float64}.

(** The loop of the category response writes the slots in order. *)
Lemma category_prepareResponse_loop (cats : list models.Category) :
  forall (i : nat) (resp : list category.Category),
    (i + length cats <= length resp)%nat ->
    category.prepareResponse_loop cats i resp =
      take i resp ++ map props.category_dto cats
        ++ drop (i + length cats) resp.
Proof.
  induction cats as [|c cats IH]; intros i resp Hlen; simpl in *.
  - rewrite Nat.add_0_r. symmetry. apply take_drop.
  - rewrite IH by (rewrite length_insert; lia).
    rewrite (take_S_r _ i (props.category_dto c))
      by (apply list_lookup_insert_eq; lia).
    rewrite take_insert_ge by lia.
    rewrite drop_insert_lt by lia.
    rewrite <- app_assoc. simpl.
    replace (i + S (length cats))%nat with (S (i + length cats)) by lia.
    reflexivity.
Qed.

Lemma category_prepareResponse_map (cats : list models.Category) :
  category.prepareResponse cats
    = {| category.Categories := map props.category_dto cats |}.
Proof.
  unfold category.prepareResponse. f_equal.
  rewrite category_prepareResponse_loop by (rewrite length_replicate; lia).
  rewrite drop_ge by (rewrite length_replicate; lia).
  simpl. apply app_nil_r.
Qed.

(** X6. The category response lists the categories of the input, one for one
    and in their order, each by its code and its name. *)
Theorem category_prepareResponse_follows_the_input
  (cats : list models.Category) :
  let resp := category.prepareResponse cats in
  length (category.Categories resp) = length cats
  /\ (forall i : nat,
        category.Categories resp !! i = props.category_dto <$> cats !! i)
  /\ map category.Code (category.Categories resp)
     = map models.Category_Code cats.
Proof.
  intros resp. subst resp. rewrite category_prepareResponse_map.
  cbn [category.Categories].
  split; [apply length_map|]. split.
  - intros i. apply list_lookup_fmap.
  - rewrite map_map. reflexivity.
Qed.

(** X7. The list of categories: the handler performs the one call [ListAll];
    an error of the repository is answered 500 with its text, anything
    else 200 with the categories in the order of the repository. *)
Theorem category_HandleGet_outcome
  (S : Type) (repo : implementation categoryRepo.Repository S) (s : S) :
  let answer := repo _ categoryRepo.ListAll s in
  run repo category.HandleGet s =
    (match snd (fst answer) with
     | Some e =>
         api.ErrorResponse http.StatusInternalServerError (errors.Error e)
     | None =>
         api.OKResponse
           {| category.Categories :=
                map props.category_dto (fst (fst answer)) |}
     end,
     snd answer, [existT _ categoryRepo.ListAll]).
Proof.
  intros answer. subst answer. unfold category.HandleGet. cbn [run].
  destruct (repo _ categoryRepo.ListAll s) as [[cats [e|]] s1];
    cbn [run fst snd]; [reflexivity|].
  rewrite category_prepareResponse_map. reflexivity.
Qed.

(** X8. The list of products: whatever the query parameters, the handler
    performs the one call [List] with the validated filters; an error of
    the repository is answered 500 with its text, anything else 200 with
    the products in the order of the repository, the count of their
    variants and no variant collection. *)
Theorem HandleGet_outcome (r : catalog.Request)
  (S : Type) (repo : implementation products.Repository S) (s : S) :
  let filters :=
    catalog.validateProductFilters
      (catalog.URL_Query_Get r "offset") (catalog.URL_Query_Get r "limit")
      (catalog.URL_Query_Get r "priceLessThan")
      (catalog.URL_Query_Get r "category") in
  let answer := repo _ (products.List filters) s in
  run repo (catalog.HandleGet r) s =
    (match snd (fst answer) with
     | Some e =>
         api.ErrorResponse http.StatusInternalServerError (errors.Error e)
     | None =>
         api.OKResponse
           {| catalog.Products := map spec.product_dto (fst (fst answer));
              catalog.ProductsAvailable :=
                wrap_int (spec.variants_total (fst (fst answer)));
              catalog.Variants := None |}
     end,
     snd answer, [existT _ (products.List filters)]).
Proof.
  intros filters answer. subst answer. unfold catalog.HandleGet.
  fold filters. cbn [run].
  destruct (repo _ (products.List filters) s) as [[dbProducts [e|]] s1];
    cbn [run fst snd]; [reflexivity|].
  rewrite prepareResponse_fields. reflexivity.
Qed.

(** X9. The detail of a product whose code passes the format check: the
    handler performs the one call [GetByCode] with that code; an error of
    the repository is answered 500 with its text, anything else 200 with
    the one product returned, the number of its variants and its variants
    as emitted. *)
Theorem HandleGetSpecific_outcome (r : catalog.Request)
  (S : Type) (repo : implementation products.Repository S) (s : S) :
  let code := catalog.PathValue r "code" in
  catalog.validateProductCode code = true ->
  let answer := repo _ (products.GetByCode code) s in
  run repo (catalog.HandleGetSpecific r) s =
    (match snd (fst answer) with
     | Some e =>
         api.ErrorResponse http.StatusInternalServerError (errors.Error e)
     | None =>
         let p := fst (fst answer) in
         api.OKResponse
           {| catalog.Products := [spec.product_dto p];
              catalog.ProductsAvailable :=
                wrap_int (len (models.Product_Variants p));
              catalog.Variants :=
                Some (map (spec.emitted (models.Product_Price p))
                        (models.Product_Variants p)) |}
     end,
     snd answer, [existT _ (products.GetByCode code)]).
Proof.
  intros code Hcode answer. subst answer. unfold catalog.HandleGetSpecific.
  fold code. rewrite Hcode. cbn [negb run].
  destruct (repo _ (products.GetByCode code) s) as [[p [e|]] s1];
    cbn [run fst snd]; [reflexivity|].
  rewrite prepareResponse_fields. simpl. rewrite Z.add_0_r. reflexivity.
Qed.

(** X10. Creating a category succeeds exactly when the body decodes, both
    fields are present and [Create] returns no error; the repository is
    called exactly when the body decodes with both fields present, and
    then once, with the category made of the two fields. *)
Theorem HandlePost_success_iff (r : category.Request)
  (S : Type) (repo : implementation categoryRepo.Repository S) (s : S) :
  (props.response repo (category.HandlePost r) s
     = api.OKResponse category.created
   <-> exists req : category.CreateRequest,
         category.Body_Decode r = Some req
         /\ category.CreateRequest_Code req <> EmptyString
         /\ category.CreateRequest_Name req <> EmptyString
         /\ fst (repo _ (categoryRepo.Create
                           (spec.new_category
                              (category.CreateRequest_Code req)
                              (category.CreateRequest_Name req))) s) = None)
  /\ props.calls repo (category.HandlePost r) s
     = match category.Body_Decode r with
       | Some req =>
           if ((category.CreateRequest_Code req =? "")
               || (category.CreateRequest_Name req =? ""))%string
           then []
           else [existT _ (categoryRepo.Create
                             (spec.new_category
                                (category.CreateRequest_Code req)
                                (category.CreateRequest_Name req)))]
       | None => []
       end.
Proof.
  unfold props.response, props.calls, category.HandlePost.
  destruct (category.Body_Decode r) as [req|]; cbn [run fst snd].
  2:{ split; [|reflexivity]. split; [discriminate|].
      intros (req & Hreq & _). discriminate. }
  destruct (String.eqb_spec (category.CreateRequest_Code req) "")
    as [Hcode|Hcode]; cbn [orb].
  { cbn [run fst snd]. split; [|reflexivity]. split; [discriminate|].
    intros (req' & Hreq & Hne & _). injection Hreq as <-. contradiction. }
  destruct (String.eqb_spec (category.CreateRequest_Name req) "")
    as [Hname|Hname].
  { cbn [run fst snd]. split; [|reflexivity]. split; [discriminate|].
    intros (req' & Hreq & _ & Hne & _). injection Hreq as <-.
    contradiction. }
  cbn [run]. fold (spec.new_category (category.CreateRequest_Code req)
                     (category.CreateRequest_Name req)).
  destruct (repo _ _ s) as [[e|] s1] eqn:Hrepo; cbn [run fst snd].
  - destruct (errors.Error e =? "category code already exists")%string;
      cbn [run fst snd];
      (split; [|reflexivity]; split; [discriminate|];
       intros (req' & Hreq & _ & _ & Hnone); injection Hreq as <-;
       rewrite Hrepo in Hnone; discriminate).
  - split; [|reflexivity]. split; [|reflexivity].
    intros _. exists req. rewrite Hrepo. repeat split; assumption.
Qed.

(** X11. No handler performs more than one call of its repository, whatever
    the request and the repository; the list handlers answer 200 or 500,
    the detail handler 200, 400 or 500, the creation 200, 400, 409 or
    500. *)
Theorem handlers_call_at_most_once :
  (forall (r : catalog.Request) (S : Type)
      (repo : implementation products.Repository S) (s : S),
      (length (props.calls repo (catalog.HandleGet r) s) <= 1)%nat
      /\ In (api.status (props.response repo (catalog.HandleGet r) s))
           [200; 500])
  /\ (forall (r : catalog.Request) (S : Type)
        (repo : implementation products.Repository S) (s : S),
        (length (props.calls repo (catalog.HandleGetSpecific r) s) <= 1)%nat
        /\ In (api.status
                 (props.response repo (catalog.HandleGetSpecific r) s))
             [200; 400; 500])
  /\ (forall (S : Type) (repo : implementation categoryRepo.Repository S)
        (s : S),
        (length (props.calls repo category.HandleGet s) <= 1)%nat
        /\ In (api.status (props.response repo category.HandleGet s))
             [200; 500])
  /\ (forall (r : category.Request) (S : Type)
        (repo : implementation categoryRepo.Repository S) (s : S),
        (length (props.calls repo (category.HandlePost r) s) <= 1)%nat
        /\ In (api.status (props.response repo (category.HandlePost r) s))
             [200; 400; 409; 500]).
Proof.
  unfold props.calls, props.response.
  split; [|split; [|split]].
  - intros r S repo s. unfold catalog.HandleGet. cbn [run].
    destruct (repo _ _ s) as [[dbProducts [e|]] s1];
      cbn; split; (lia || tauto).
  - intros r S repo s. unfold catalog.HandleGetSpecific.
    destruct (catalog.validateProductCode _); cbn [negb run].
    + destruct (repo _ _ s) as [[p [e|]] s1]; cbn; split; (lia || tauto).
    + cbn. split; (lia || tauto).
  - intros S repo s. unfold category.HandleGet. cbn [run].
    destruct (repo _ _ s) as [[cats [e|]] s1]; cbn; split; (lia || tauto).
  - intros r S repo s. unfold category.HandlePost.
    destruct (category.Body_Decode r) as [req|];
      [|cbn; split; (lia || tauto)].
    destruct ((category.CreateRequest_Code req =? "")
              || (category.CreateRequest_Name req =? ""))%string;
      [cbn; split; (lia || tauto)|].
    cbn [run].
    destruct (repo _ _ s) as [[e|] s1];
      [destruct (errors.Error e =? "category code already exists")%string|];
      cbn; split; (lia || tauto).
Qed.

End HandlersMore.

(* ===================================================================== *)
(** * The gorm repositories *)

Section Repositories.

Context {F : Float64}.

(** The error handling every single-row lookup repeats. *)
Lemma lookup_pattern {A : Type} (zero found : A)
  (err : option errors.error) :
  props.lookup_result zero err found
    match err with
    | Some e =>
        if errors.Is e errors.ErrRecordNotFound
        then (zero, None) else (zero, Some e)
    | None => (found, None)
    end.
Proof.
  unfold props.lookup_result.
  destruct err as [e|]; [destruct (errors.Is e _) eqn:His|]; cbn [fst snd].
  - split; [discriminate|]. intros _. right. exists e. auto.
  - split; [|discriminate]. intros e' He'. injection He' as <-. auto.
  - split; [discriminate|]. intros _. left. auto.
Qed.

(** The error handling every listing method repeats. *)
Lemma list_pattern {A : Type} (rows : list A) (err : option errors.error) :
  props.list_result (rows, err)
    match err with
    | Some e => ([], Some e)
    | None => (rows, None)
    end.
Proof.
  unfold props.list_result.
  destruct err as [e|]; cbn [fst snd]; repeat split; congruence.
Qed.

(** X12. The five single-row lookups of the two repositories never report a
    missing record as an error: every error they return is the error of
    the store, is not a "record not found", and comes with the zero value;
    without an error the value is that of the row found, or the zero value
    when the store found none.  The category [GetByID] yields the code of
    the row, [GetByCode] its name, [GetProducts] its products. *)
Theorem lookups_turn_not_found_into_zero (conn : gormstmt.Conn) :
  (forall id : string,
      let st :=
        gormstmt.First_product conn
          (gormstmt.Preload "Variants" gormstmt.WithContext)
          [gormstmt.arg_string id] in
      props.lookup_result models.Product_zero (snd st) (fst st)
        (productsGorm.GetByID conn id))
  /\ (forall code : string,
        let st :=
          gormstmt.First_product conn
            (productsGorm.GetByCode_statement code) [] in
        props.lookup_result models.Product_zero (snd st) (fst st)
          (productsGorm.GetByCode conn code))
  /\ (forall id : Z,
        let st :=
          gormstmt.First_category conn gormstmt.WithContext
            [gormstmt.arg_int id] in
        props.lookup_result EmptyString (snd st)
          (models.Category_Code (fst st)) (categoryGorm.GetByID conn id))
  /\ (forall code : string,
        let st :=
          gormstmt.First_category conn
            (gormstmt.Where "code = ?" [gormstmt.arg_string code]
               gormstmt.WithContext) [] in
        props.lookup_result EmptyString (snd st)
          (models.Category_Name (fst st)) (categoryGorm.GetByCode conn code))
  /\ (forall code : string,
        let st :=
          gormstmt.First_category conn
            (gormstmt.Where "code = ?" [gormstmt.arg_string code]
               (gormstmt.Preload "Products.Variants" gormstmt.WithContext))
            [] in
        props.lookup_result [] (snd st)
          (models.Category_Products (fst st))
          (categoryGorm.GetProducts conn code)).
Proof.
  split; [|split; [|split; [|split]]]; intros x st; subst st.
  - unfold productsGorm.GetByID.
    destruct (gormstmt.First_product conn _ _) as [product err].
    apply lookup_pattern.
  - unfold productsGorm.GetByCode, products.GormRepo_GetByCode.
    cbn [productsGorm.DB gormdb.First_product_where_code].
    destruct (gormstmt.First_product conn _ _) as [product err].
    apply lookup_pattern.
  - unfold categoryGorm.GetByID.
    destruct (gormstmt.First_category conn _ _) as [category err].
    apply lookup_pattern.
  - unfold categoryGorm.GetByCode.
    destruct (gormstmt.First_category conn _ _) as [category err].
    apply lookup_pattern.
  - unfold categoryGorm.GetProducts.
    destruct (gormstmt.First_category conn _ _) as [category err].
    apply lookup_pattern.
Qed.

(** X13. The four listing methods return the error of the store as it is, and
    never rows together with an error: with an error the slice is nil,
    without it the rows are those the statement found. *)
Theorem listings_return_rows_or_error (conn : gormstmt.Conn) :
  props.list_result
    (gormstmt.Find_products conn
       (gormstmt.Preload "Variants" gormstmt.WithContext))
    (productsGorm.ListAll conn)
  /\ (forall filters : products.SearchFilters,
        props.list_result
          (gormstmt.Find_products conn (productsGorm.List_statement filters))
          (productsGorm.List conn filters))
  /\ (forall category : string,
        exists st : gormstmt.Statement,
          props.bound st = [gormstmt.arg_string category]
          /\ props.list_result (gormstmt.Find_products conn st)
               (productsGorm.GetByCategory conn category))
  /\ props.list_result
       (gormstmt.Find_categories conn gormstmt.WithContext)
       (categoryGorm.ListAll conn).
Proof.
  split; [|split; [|split]].
  - unfold productsGorm.ListAll.
    destruct (gormstmt.Find_products conn _) as [rows err].
    apply list_pattern.
  - intros filters. unfold productsGorm.List.
    destruct (gormstmt.Find_products conn _) as [rows err].
    apply list_pattern.
  - intros category. unfold productsGorm.GetByCategory.
    match goal with
    | |- context [gormstmt.Find_products conn ?st] => exists st
    end.
    split; [reflexivity|].
    destruct (gormstmt.Find_products conn _) as [rows err].
    apply list_pattern.
  - unfold categoryGorm.ListAll.
    destruct (gormstmt.Find_categories conn _) as [rows err].
    apply list_pattern.
Qed.

(** X14. [Create] of the category repository returns an error exactly when the
    store does, and the error it returns is never one that [errors.Is]
    recognises as a duplicated key: the conflict error is a new error, so
    that a caller can tell it by its text only. *)
Theorem GormRepo_Create_hides_the_duplicated_key
  (db : gormdb.DB) (newCategory : models.Category) :
  let res := categoryRepo.GormRepo_Create db newCategory in
  (res = None <-> gormdb.Create_category db newCategory = None)
  /\ (forall e : errors.error,
        res = Some e -> errors.Is e errors.ErrDuplicatedKey = false)
  /\ (forall e : errors.error,
        res = Some e ->
        errors.Error e = spec.conflict_text ->
        exists e0 : errors.error,
          gormdb.Create_category db newCategory = Some e0
          /\ (errors.Is e0 errors.ErrDuplicatedKey = true
              \/ errors.Error e0 = spec.conflict_text)).
Proof.
  intros res. subst res. unfold categoryRepo.GormRepo_Create.
  destruct (gormdb.Create_category db newCategory) as [e0|].
  2:{ split; [tauto|]. split; discriminate. }
  destruct (errors.Is e0 errors.ErrDuplicatedKey) eqn:Hdup.
  - split; [split; discriminate|]. split.
    + intros e He. injection He as <-. reflexivity.
    + intros e _ _. exists e0. auto.
  - split; [split; discriminate|]. split.
    + intros e He. injection He as <-. exact Hdup.
    + intros e He Htext. injection He as <-. exists e0. auto.
Qed.

(** X15. The statement of the list endpoint, whatever the query parameters:
    its page is an offset that is not negative and a limit from 1 to 100,
    it is ordered by the ID of the product, and it is the only thing the
    answer depends on: two stores that answer this statement alike are
    answered alike, with 500 when the statement fails and 200 otherwise. *)
Theorem list_endpoint_statement_is_bounded (r : catalog.Request) :
  let filters :=
    catalog.validateProductFilters
      (catalog.URL_Query_Get r "offset") (catalog.URL_Query_Get r "limit")
      (catalog.URL_Query_Get r "priceLessThan")
      (catalog.URL_Query_Get r "category") in
  let st := productsGorm.List_statement filters in
  (exists o l : Z,
      gormstmt.offset st = Some o /\ gormstmt.limit st = Some l
      /\ 0 <= o <= maxInt /\ 1 <= l <= 100)
  /\ gormstmt.orders st = ["products.id ASC"%string]
  /\ (forall conn conn' : gormstmt.Conn,
        gormstmt.Find_products conn st = gormstmt.Find_products conn' st ->
        run (productsGorm.GormRepo conn) (catalog.HandleGet r) tt
          = run (productsGorm.GormRepo conn') (catalog.HandleGet r) tt)
  /\ (forall conn : gormstmt.Conn,
        api.status
          (props.response (productsGorm.GormRepo conn) (catalog.HandleGet r)
             tt)
          = match snd (gormstmt.Find_products conn st) with
            | Some _ => 500
            | None => 200
            end).
Proof.
  intros filters st.
  destruct (validated_page
              (catalog.URL_Query_Get r "offset")
              (catalog.URL_Query_Get r "limit")
              (catalog.URL_Query_Get r "priceLessThan")
              (catalog.URL_Query_Get r "category")) as [Ho Hl].
  fold filters in Ho, Hl.
  assert (Horders : gormstmt.orders st = ["products.id ASC"%string]).
  { subst st. unfold productsGorm.List_statement.
    destruct (negb (products.Category filters =? "")%string),
             (products.PriceLessThan filters); reflexivity. }
  split; [|split; [exact Horders|split]].
  - exists (products.Offset filters), (products.Limit filters).
    repeat split; (reflexivity || lia).
  - intros conn conn' Hsame. unfold catalog.HandleGet. fold filters.
    cbn [run productsGorm.GormRepo]. unfold productsGorm.List.
    fold st. rewrite Hsame.
    destruct (gormstmt.Find_products conn' st) as [rows [e|]]; reflexivity.
  - intros conn. unfold props.response, catalog.HandleGet. fold filters.
    cbn [run productsGorm.GormRepo]. unfold productsGorm.List. fold st.
    destruct (gormstmt.Find_products conn st) as [rows [e|]]; reflexivity.
Qed.

(** X16. The SQL text of the statement [List] builds depends on the filters
    only through which of them are set; the category and the price
    threshold themselves are bound values of the statement, in this
    order, and nothing else is bound. *)
Theorem List_statement_binds_the_filter_values
  (f1 f2 : products.SearchFilters) :
  (products.Category f1 = EmptyString <-> products.Category f2 = EmptyString)
  ->
  (products.PriceLessThan f1 = None <-> products.PriceLessThan f2 = None) ->
  props.texts (productsGorm.List_statement f1)
    = props.texts (productsGorm.List_statement f2)
  /\ props.bound (productsGorm.List_statement f1)
     = (if (products.Category f1 =? "")%string then []
        else [gormstmt.arg_string (products.Category f1)])
       ++ match products.PriceLessThan f1 with
          | Some p => [gormstmt.arg_decimal p]
          | None => []
          end.
Proof.
  intros Hcat Hprice. unfold productsGorm.List_statement. split.
  - destruct (String.eqb_spec (products.Category f1) "") as [H1|H1],
             (String.eqb_spec (products.Category f2) "") as [H2|H2];
      try tauto;
      destruct (products.PriceLessThan f1) as [p1|],
               (products.PriceLessThan f2) as [p2|];
      try reflexivity;
      exfalso; destruct Hprice as [Hp1 Hp2];
      (discriminate (Hp1 eq_refl) || discriminate (Hp2 eq_refl)).
  - destruct (products.Category f1 =? "")%string,
             (products.PriceLessThan f1); reflexivity.
Qed.

(** X17. The status of the detail endpoint over the gorm repository: 400 for a
    code that fails the format check; otherwise 500 exactly when the
    statement of [GetByCode] fails with an error other than "record not
    found", and 200 in every other case, a missing product included. *)
Theorem detail_endpoint_status (r : catalog.Request) (conn : gormstmt.Conn) :
  let code := catalog.PathValue r "code" in
  api.status
    (props.response (productsGorm.GormRepo conn)
       (catalog.HandleGetSpecific r) tt)
    = if catalog.validateProductCode code then
        match snd (gormstmt.First_product conn
                     (productsGorm.GetByCode_statement code) []) with
        | Some e => if errors.Is e errors.ErrRecordNotFound then 200 else 500
        | None => 200
        end
      else 400.
Proof.
  intros code. unfold props.response, catalog.HandleGetSpecific. fold code.
  destruct (catalog.validateProductCode code); cbn [negb run];
    [|reflexivity].
  cbn [productsGorm.GormRepo]. unfold productsGorm.GetByCode,
    products.GormRepo_GetByCode.
  cbn [productsGorm.DB gormdb.First_product_where_code].
  destruct (gormstmt.First_product conn _ _) as [p [e|]]; cbn [snd];
    [destruct (errors.Is e errors.ErrRecordNotFound)|]; reflexivity.
Qed.

(** X18. The status of the creation endpoint over the gorm repository: 400 when
    the body does not decode or a field is empty; otherwise 200 when the
    store accepts the category, 409 when its error is a duplicated key or
    bears the text of the conflict, 500 for every other error. *)
Theorem create_endpoint_status (r : category.Request) (conn : gormstmt.Conn) :
  api.status
    (props.response (categoryGorm.GormRepo conn) (category.HandlePost r) tt)
    = match category.Body_Decode r with
      | None => 400
      | Some req =>
          if ((category.CreateRequest_Code req =? "")
              || (category.CreateRequest_Name req =? ""))%string
          then 400
          else
            match gormstmt.Create conn
                    (spec.new_category (category.CreateRequest_Code req)
                       (category.CreateRequest_Name req)) with
            | None => 200
            | Some e =>
                if errors.Is e errors.ErrDuplicatedKey
                   || (errors.Error e =? spec.conflict_text)%string
                then 409 else 500
            end
      end.
Proof.
  unfold props.response, category.HandlePost.
  destruct (category.Body_Decode r) as [req|]; [|reflexivity].
  destruct ((category.CreateRequest_Code req =? "")
            || (category.CreateRequest_Name req =? ""))%string;
    [reflexivity|].
  cbn [run categoryGorm.GormRepo]. unfold categoryGorm.Create,
    categoryRepo.GormRepo_Create.
  cbn [productsGorm.DB gormdb.Create_category].
  fold (spec.new_category (category.CreateRequest_Code req)
          (category.CreateRequest_Name req)).
  destruct (gormstmt.Create conn _) as [e|]; [|reflexivity].
  destruct (errors.Is e errors.ErrDuplicatedKey); cbn [orb].
  - reflexivity.
  - unfold spec.conflict_text.
    destruct (errors.Error e =? "category code already exists")%string;
      reflexivity.
Qed.

End Repositories.

(* ===================================================================== *)
(** * These properties at the inputs of the tests *)

Local Open Scope string_scope.

Lemma emitted_prices_are_final_witness :
  catalog.Variants
    (catalog.prepareResponse (F := sample.exact)
       [props.with_variants
          (sample.prod001 [sample.medium; sample.large])
          [spec.with_price sample.medium (decimal.New 1005 (-1));
           sample.large]] true)
    = Some [spec.with_price sample.medium (decimal.New 1005 (-1));
            sample.large]
  /\ Forall (fun v => decimal.eq_Zero (models.Variant_Price v) = false)
       [spec.with_price sample.medium (decimal.New 1005 (-1)); sample.large].
Proof.
  split.
  - apply (proj1 (emitted_prices_are_final (F := sample.exact)
                    (sample.prod001 [sample.medium; sample.large]))).
    vm_compute. reflexivity.
  - apply (proj2 (emitted_prices_are_final (F := sample.exact)
                    (sample.prod001 [sample.medium; sample.large]))).
    + reflexivity.
    + vm_compute. reflexivity.
Defined.

Lemma ProductsAvailable_counts_emitted_variants_witness :
  exists vs : list models.Variant,
    catalog.Variants
      (catalog.prepareResponse (F := sample.exact)
         [sample.prod001 [sample.medium; sample.large]] true) = Some vs
    /\ catalog.ProductsAvailable
         (catalog.prepareResponse (F := sample.exact)
            [sample.prod001 [sample.medium; sample.large]] true) = len vs.
Proof.
  destruct (ProductsAvailable_counts_emitted_variants (F := sample.exact)
              (sample.prod001 [sample.medium; sample.large]) [])
    as (vs & Hvs & _ & Hcount).
  - vm_compute. discriminate.
  - exists vs. split; [exact Hvs|]. apply Hcount. reflexivity.
Defined.

Lemma prepareResponse_app_witness :
  catalog.Variants
    (catalog.prepareResponse (F := sample.exact)
       ([sample.prod001 [sample.medium]] ++ [sample.prod002]) true)
    = catalog.Variants
        (catalog.prepareResponse (F := sample.exact)
           [sample.prod001 [sample.medium]] true).
Proof.
  apply (proj2 (proj2 (prepareResponse_app (F := sample.exact)
                         [sample.prod001 [sample.medium]]
                         [sample.prod002] true))).
  discriminate.
Defined.

Lemma HandleGetSpecific_outcome_witness :
  run (productsGorm.GormRepo
         (fixtures.conn [sample.prod001 [sample.medium; sample.large]] []))
      (catalog.HandleGetSpecific (F := sample.exact)
         (sample.get_code "PROD001")) tt
    = (api.OKResponse
         {| catalog.Products :=
              [spec.product_dto
                 (sample.prod001 [sample.medium; sample.large])];
            catalog.ProductsAvailable := 2;
            catalog.Variants :=
              Some [spec.with_price sample.medium (decimal.New 1005 (-1));
                    sample.large] |},
       tt, [existT _ (products.GetByCode "PROD001")]).
Proof.
  apply (HandleGetSpecific_outcome (F := sample.exact)
           (sample.get_code "PROD001") unit
           (productsGorm.GormRepo
              (fixtures.conn
                 [sample.prod001 [sample.medium; sample.large]] []))
           tt).
  reflexivity.
Defined.

Lemma HandlePost_success_iff_witness :
  props.response
    (categoryGorm.GormRepo (fixtures.conn [] [sample.clothing]))
    (category.HandlePost (spec.create_request "shoes" "Shoes")) tt
    = api.OKResponse category.created.
Proof.
  apply (proj2 (proj1 (HandlePost_success_iff
                         (spec.create_request "shoes" "Shoes") unit
                         (categoryGorm.GormRepo
                            (fixtures.conn [] [sample.clothing])) tt))).
  exists {| category.CreateRequest_Code := "shoes";
            category.CreateRequest_Name := "Shoes" |}.
  split; [reflexivity|]. split; [discriminate|]. split; [discriminate|].
  reflexivity.
Defined.

Lemma GormRepo_Create_hides_the_duplicated_key_witness :
  errors.Is (errors.New "category code already exists")
    errors.ErrDuplicatedKey = false
  /\ categoryRepo.GormRepo_Create (sample.store [] [])
       (spec.new_category "shoes" "Shoes") = None.
Proof.
  split.
  - apply (proj1 (proj2 (GormRepo_Create_hides_the_duplicated_key
                           (sample.store [] [sample.clothing])
                           (spec.new_category "clothing" "Clothing")))).
    reflexivity.
  - apply (proj2 (proj1 (GormRepo_Create_hides_the_duplicated_key
                           (sample.store [] [])
                           (spec.new_category "shoes" "Shoes")))).
    reflexivity.
Defined.

Lemma list_endpoint_statement_is_bounded_witness :
  run (productsGorm.GormRepo (fixtures.conn [sample.prod002] []))
      (catalog.HandleGet (F := sample.exact)
         (fixtures.get_list "-5" "150" "0" "shoes")) tt
    = run (productsGorm.GormRepo
             (fixtures.conn [sample.prod002] [sample.shoes]))
        (catalog.HandleGet (F := sample.exact)
           (fixtures.get_list "-5" "150" "0" "shoes")) tt.
Proof.
  apply (proj1 (proj2 (proj2 (list_endpoint_statement_is_bounded
                                (F := sample.exact)
                                (fixtures.get_list "-5" "150" "0" "shoes"))))).
  reflexivity.
Defined.

Lemma List_statement_binds_the_filter_values_witness :
  props.texts
    (productsGorm.List_statement
       (catalog.validateProductFilters "0" "10" "99.99" "shoes"))
    = props.texts
        (productsGorm.List_statement
           (catalog.validateProductFilters "15" "20" "199.99"
              "x' OR '1'='1"))
  /\ props.bound
       (productsGorm.List_statement
          (catalog.validateProductFilters "15" "20" "199.99"
             "x' OR '1'='1"))
     = [gormstmt.arg_string "x' OR '1'='1";
        gormstmt.arg_decimal (decimal.New 19999 (-2))].
Proof.
  split.
  - apply (List_statement_binds_the_filter_values
             (catalog.validateProductFilters "0" "10" "99.99" "shoes")
             (catalog.validateProductFilters "15" "20" "199.99"
                "x' OR '1'='1")); split; discriminate.
  - apply (List_statement_binds_the_filter_values
             (catalog.validateProductFilters "15" "20" "199.99"
                "x' OR '1'='1")
             (catalog.validateProductFilters "0" "10" "99.99" "shoes"));
      split; discriminate.
Defined.
